(** * County-demographics operation interpreter ([hw4.py])

    A shallow embedding of the operation interpreter of [hw4.py] and the
    properties its specification states about it.

    Layout:
    - [PyStr]: the Python string methods the interpreter uses;
    - [py]: printing to standard output and raising exceptions;
    - [PyNum]: the numeric runtime (the program uses Python numbers only
      through [sum], [*], [/], [<], [>], [float], [str], [repr] and one
      format), kept abstract in the program and in the general theorems;
    - the program: [get_field_value], the filters, the aggregates,
      [display], the loop of [execute_operations] and [main];
    - [Binary64]: the runtime of CPython 3.12 on integers and binary64
      floats (the program does not parse on earlier versions), used to run
      the program on sample data;
    - the vocabulary of the specification, and the properties. *)

From Stdlib Require Import String Ascii List ZArith Bool Lia SpecFloat.
From stdpp Require Import base strings list gmap pretty.

Local Open Scope string_scope.
Local Open Scope list_scope.

(** ** Python string methods *)

Module PyStr.

(** [str.isspace] on one character; characters are the code points below
    256: TAB, LF, VT, FF, CR, FS, GS, RS, US, SPACE, NEL and NBSP. *)
Definition isspace (c : ascii) : bool :=
  let n := nat_of_ascii c in
  ((9 <=? n)%nat && (n <=? 13)%nat) || ((28 <=? n)%nat && (n <=? 32)%nat)
  || (n =? 133)%nat || (n =? 160)%nat.

(** [s.lstrip(chars)] for a character class [p]. *)
Fixpoint lstrip_by (p : ascii -> bool) (s : string) : string :=
  match s with
  | EmptyString => EmptyString
  | String c s' => if p c then lstrip_by p s' else s
  end.

(** [s.rstrip(chars)] for a character class [p]. *)
Fixpoint rstrip_by (p : ascii -> bool) (s : string) : string :=
  match s with
  | EmptyString => EmptyString
  | String c s' =>
      match rstrip_by p s' with
      | EmptyString => if p c then EmptyString else String c EmptyString
      | r => String c r
      end
  end.

(** [s.strip()] *)
Definition strip (s : string) : string :=
  rstrip_by isspace (lstrip_by isspace s).

(** [s.rstrip(c)] for a one-character argument. *)
Definition rstrip (c : ascii) (s : string) : string :=
  rstrip_by (Ascii.eqb c) s.

(** [s.split(sep)] for a one-character separator: never the empty list. *)
Fixpoint split (sep : ascii) (s : string) : list string :=
  match s with
  | EmptyString => [EmptyString]
  | String c s' =>
      if Ascii.eqb c sep then EmptyString :: split sep s'
      else match split sep s' with
           | [] => [String c EmptyString]
           | p :: ps => String c p :: ps
           end
  end.

(** [sep.join(parts)] *)
Definition join (sep : string) (parts : list string) : string :=
  String.concat sep parts.

(** [s.startswith(p)] *)
Definition startswith (s p : string) : bool := String.prefix p s.

(** Cutting a string at the first occurrence of [sep]: the text before it
    and the text after it (the whole string and the empty string when
    [sep] does not occur). *)
Fixpoint cut_first (sep : ascii) (s : string) : string * string :=
  match s with
  | EmptyString => (EmptyString, EmptyString)
  | String c s' =>
      if Ascii.eqb c sep then (EmptyString, s')
      else let '(a, b) := cut_first sep s' in (String c a, b)
  end.

(** [c in s] *)
Fixpoint contains (c : ascii) (s : string) : bool :=
  match s with
  | EmptyString => false
  | String c' s' => Ascii.eqb c' c || contains c s'
  end.

End PyStr.

(** ** Exceptions and standard output *)

(** The exceptions the program can raise. *)
Inductive exn : Type :=
| ValueError (msg : string)
| IndexError
| KeyError (key : string)
| SystemExit (code : nat).

(** A computation prints lines and then either raises or returns. *)
Definition py (A : Type) : Type := list string * (exn + A).

Definition ret {A} (a : A) : py A := ([], inr a).
Definition raise {A} (e : exn) : py A := ([], inl e).
Definition print (s : string) : py unit := ([s], inr tt).

Definition bind {A B} (m : py A) (k : A -> py B) : py B :=
  match m with
  | (o, inl e) => (o, inl e)
  | (o, inr a) => let '(o', r) := k a in (o ++ o', r)
  end.

(** [try: m except <classes>: h] where [h e = None] when the [except]
    clause does not match [e]. *)
Definition try_except {A} (m : py A) (h : exn -> option (py A)) : py A :=
  match m with
  | (o, inl e) =>
      match h e with
      | Some k => let '(o', r) := k in (o ++ o', r)
      | None => (o, inl e)
      end
  | (o, inr a) => (o, inr a)
  end.

(** A computation that prints nothing and may raise, run inside [py]. *)
Definition lift {A} (r : exn + A) : py A := ([], r).

Notation "x <- m ;; k" := (bind m (fun x => k))
  (at level 100, m at next level, right associativity).
Notation "m ;;; k" := (bind m (fun _ => k))
  (at level 100, right associativity).

(** [l[i]] on a list, for an index that is not negative. *)
Definition index {A} (l : list A) (i : nat) : exn + A :=
  match l !! i with
  | Some a => inr a
  | None => inl IndexError
  end.

(** [d[k]] on a dict. *)
Definition getitem {V} (d : gmap string V) (k : string) : exn + V :=
  match d !! k with
  | Some v => inr v
  | None => inl (KeyError k)
  end.

(** ** The numeric runtime *)

(** Python numbers as the program uses them: the constants [0] and [100],
    the built-in [sum] of a finite sequence of numbers, [*], [/], [<], [>],
    [float(s)] ([None] for [ValueError]), [str], [repr] and the format
    [.15f]. *)
Class PyNum : Type := {
  num : Type;
  int_0 : num;
  int_100 : num;
  num_sum : list num -> num;
  num_mul : num -> num -> num;
  num_div : num -> num -> num;
  num_lt : num -> num -> bool;
  num_gt : num -> num -> bool;
  float_of_str : string -> option num;
  num_str : num -> string;
  num_repr : num -> string;
  num_format_15f : num -> string
}.

(** ** The program *)

Section Program.

Context `{PyNum}.

(** Modelled from the spec: the class [CountyDemographics] of the data
    module, which is not among the sources.  A record has a county name, a
    state code and five mappings from key names to numbers, a key being
    possibly absent from a mapping; these are the attributes the program
    reads. *)
Record CountyDemographics : Type := {
  age : gmap string num;
  county : string;
  education : gmap string num;
  ethnicities : gmap string num;
  income : gmap string num;
  population : gmap string num;
  state : string
}.

Definition Dataset : Type := list CountyDemographics.

(** [float(s)]; the message of the exception is never printed by the
    program. *)
Definition float (s : string) : exn + num :=
  match float_of_str s with
  | Some v => inr v
  | None => inl (ValueError ("could not convert string to float: '" +:+ s +:+ "'"))
  end.

(** The items of the generator [(term(entry) for entry in data)], in
    order; the first exception raised by [term] ends it. *)
Fixpoint generate (term : CountyDemographics -> exn + num) (data : Dataset)
  : exn + list num :=
  match data with
  | [] => inr []
  | entry :: rest =>
      match term entry with
      | inl e => inl e
      | inr x =>
          match generate term rest with
          | inl e => inl e
          | inr xs => inr (x :: xs)
          end
      end
  end.

(** [sum(term(entry) for entry in data)] where [term] may raise: an
    exception raised while the generator is consumed leaves [sum]. *)
Definition sum_gen (term : CountyDemographics -> exn + num) (data : Dataset)
  : exn + num :=
  match generate term data with
  | inl e => inl e
  | inr xs => inr (num_sum xs)
  end.

(** [[entry for entry in data if cond(entry)]] where [cond] may raise. *)
Fixpoint comprehension (cond : CountyDemographics -> exn + bool)
    (data : Dataset) : exn + Dataset :=
  match data with
  | [] => inr []
  | entry :: rest =>
      match cond entry with
      | inl e => inl e
      | inr b =>
          match comprehension cond rest with
          | inl e => inl e
          | inr l => inr (if b then entry :: l else l)
          end
      end
  end.

Definition get_field_value (entry : CountyDemographics) (field : string)
  : exn + num :=
  let parts := PyStr.split "." field in
  match parts with
  | [] => inl IndexError
  | prefix :: rest =>
      let key := PyStr.join "." rest in
      if decide (prefix = "Education") then getitem (education entry) key
      else if decide (prefix = "Ethnicities") then getitem (ethnicities entry) key
      else if decide (prefix = "Income") then getitem (income entry) key
      else if decide (prefix = "Population") then getitem (population entry) key
      else inl (ValueError ("Field '" +:+ field +:+ "' not found in entry."))
  end.

(** [repr(d.get(k, 'N/A'))] *)
Definition repr_get (d : gmap string num) (k : string) : string :=
  match d !! k with
  | Some v => num_repr v
  | None => "'N/A'"
  end.

Definition display_entry (entry : CountyDemographics) : py unit :=
  print (county entry +:+ ", " +:+ state entry) ;;;
  print ("        Population: " +:+ repr_get (population entry) "2014 Population") ;;;
  print "        Age:" ;;;
  print ("               < 5: " +:+ repr_get (age entry) "< 5" +:+ "%") ;;;
  print ("               < 18: " +:+ repr_get (age entry) "< 18" +:+ "%") ;;;
  print ("               > 65: " +:+ repr_get (age entry) "> 65" +:+ "%") ;;;
  print "        Education" ;;;
  print ("                >= High School: " +:+ repr_get (education entry) "High School or Higher" +:+ "%") ;;;
  print ("                >= Bachelor's: " +:+ repr_get (education entry) "Bachelor's Degree or Higher" +:+ "%") ;;;
  print "        Ethnicity Percentages" ;;;
  print ("                American Indian and Alaska Native: " +:+ repr_get (ethnicities entry) "American Indian and Alaska Native Alone" +:+ "%") ;;;
  print ("                Asian Alone: " +:+ repr_get (ethnicities entry) "Asian Alone" +:+ "%") ;;;
  print ("                Black Alone: " +:+ repr_get (ethnicities entry) "Black Alone" +:+ "%") ;;;
  print ("                Hispanic or Latino: " +:+ repr_get (ethnicities entry) "Hispanic or Latino" +:+ "%") ;;;
  print ("                Native Hawaiian and Other Pacific Islander Alone: " +:+ repr_get (ethnicities entry) "Native Hawaiian and Other Pacific Islander Alone" +:+ "%") ;;;
  print ("                Two or More Races: " +:+ repr_get (ethnicities entry) "Two or More Races" +:+ "%") ;;;
  print ("                White Alone: " +:+ repr_get (ethnicities entry) "White Alone" +:+ "%") ;;;
  print ("                White Alone, not Hispanic or Latino: " +:+ repr_get (ethnicities entry) "White Alone, not Hispanic or Latino" +:+ "%") ;;;
  print "        Income" ;;;
  print ("                Median Household: " +:+ repr_get (income entry) "Median Household Income") ;;;
  print ("                Per Capita: " +:+ repr_get (income entry) "Per Capita Income") ;;;
  print ("                Below Poverty Level: " +:+ repr_get (income entry) "Persons Below Poverty Level" +:+ "%") ;;;
  print EmptyString.

Fixpoint display (data : Dataset) : py unit :=
  match data with
  | [] => ret tt
  | entry :: rest => display_entry entry ;;; display rest
  end.

Definition filter_state (data : Dataset) (st : string) : py Dataset :=
  let filtered := List.filter (fun entry => bool_decide (state entry = st)) data in
  print ("Filter: state == " +:+ st +:+ " (" +:+ pretty (length filtered) +:+ " entries)") ;;;
  ret filtered.

(** The condition of the comprehension of [filter_gt]. *)
Definition cond_gt (field : string) (value : num) (entry : CountyDemographics)
  : exn + bool :=
  match get_field_value entry field with
  | inl e => inl e
  | inr v => inr (num_gt v value)
  end.

(** The condition of the comprehension of [filter_lt]. *)
Definition cond_lt (field : string) (value : num) (entry : CountyDemographics)
  : exn + bool :=
  match get_field_value entry field with
  | inl e => inl e
  | inr v => inr (num_lt v value)
  end.

Definition filter_gt (data : Dataset) (field : string) (value : num) : py Dataset :=
  filtered <- lift (comprehension (cond_gt field value) data) ;;
  print ("Filter: " +:+ field +:+ " gt " +:+ num_str value +:+ " ("
         +:+ pretty (length filtered) +:+ " entries)") ;;;
  ret filtered.

Definition filter_lt (data : Dataset) (field : string) (value : num) : py Dataset :=
  filtered <- lift (comprehension (cond_lt field value) data) ;;
  print ("Filter: " +:+ field +:+ " lt " +:+ num_str value +:+ " ("
         +:+ pretty (length filtered) +:+ " entries)") ;;;
  ret filtered.

(** [entry.population.get("2014 Population", 0)] *)
Definition population_2014 (entry : CountyDemographics) : num :=
  default int_0 (population entry !! "2014 Population").

Definition population_total (data : Dataset) : py unit :=
  let total_population := num_sum (map population_2014 data) in
  print ("2014 population: " +:+ num_str total_population).

(** One term of the sub-population sum:
    [entry.population.get("2014 Population", 0) * (get_field_value(entry, field) / 100)]. *)
Definition sub_population_term (field : string) (entry : CountyDemographics)
  : exn + num :=
  match get_field_value entry field with
  | inl e => inl e
  | inr v => inr (num_mul (population_2014 entry) (num_div v int_100))
  end.

(** [except ValueError as e: print(f"Error: {e}")] *)
Definition report_ValueError (e : exn) : option (py unit) :=
  match e with
  | ValueError msg => Some (print ("Error: " +:+ msg))
  | _ => None
  end.

Definition population_field (data : Dataset) (field : string) : py unit :=
  try_except
    (let total_population := num_sum (map population_2014 data) in
     sub_population <- lift (sum_gen (sub_population_term field) data) ;;
     let sub_population_str :=
       PyStr.rstrip "." (PyStr.rstrip "0" (num_format_15f sub_population)) in
     print ("2014 " +:+ field +:+ " population: " +:+ sub_population_str))
    report_ValueError.

Definition percent_field (data : Dataset) (field : string) : py unit :=
  try_except
    (let total_population := num_sum (map population_2014 data) in
     sub_population <- lift (sum_gen (sub_population_term field) data) ;;
     if num_gt total_population int_0 then
       let percentage := num_mul (num_div sub_population total_population) int_100 in
       print ("2014 " +:+ field +:+ " percentage: " +:+ num_repr percentage)
     else
       print ("2014 " +:+ field +:+ " percentage: 0.000000"))
    report_ValueError.

(** The body of the [try] of [execute_operations]: parse one stripped,
    non-blank line and run it on the current dataset; the result is the
    dataset bound to [data] afterwards. *)
Definition dispatch (data : Dataset) (line : string) : py Dataset :=
  let parts := PyStr.split ":" line in
  op <- lift (index parts 0) ;;
  if decide (op = "display") then
    display data ;;; ret data
  else if decide (op = "filter-state") then
    st <- lift (index parts 1) ;;
    filter_state data st
  else if decide (op = "filter-gt") then
    field <- lift (index parts 1) ;;
    arg <- lift (index parts 2) ;;
    value <- lift (float arg) ;;
    filter_gt data field value
  else if decide (op = "filter-lt") then
    field <- lift (index parts 1) ;;
    arg <- lift (index parts 2) ;;
    value <- lift (float arg) ;;
    filter_lt data field value
  else if decide (op = "population-total") then
    population_total data ;;; ret data
  else if PyStr.startswith op "population" then
    field <- lift (index parts 1) ;;
    population_field data field ;;; ret data
  else if PyStr.startswith op "percent" then
    field <- lift (index parts 1) ;;
    percent_field data field ;;; ret data
  else raise (ValueError "Unknown operation").

(** [except (ValueError, IndexError)] of [execute_operations]: print the
    error line and keep the dataset. *)
Definition malformed_line (data : Dataset) (idx : nat) (line : string) (e : exn)
  : option (py Dataset) :=
  match e with
  | ValueError _ | IndexError =>
      Some (print ("Error: Malformed line " +:+ pretty (idx + 1) +:+ ": " +:+ line) ;;;
            ret data)
  | _ => None
  end.

(** One iteration of the loop of [execute_operations] on the line [raw] of
    index [idx], as [readlines] returned it. *)
Definition step (data : Dataset) (idx : nat) (raw : string) : py Dataset :=
  let line := PyStr.strip raw in
  if decide (line = EmptyString) then ret data
  else try_except (dispatch data line) (malformed_line data idx line).

(** The loop of [execute_operations] from index [idx] on. *)
Fixpoint run (data : Dataset) (idx : nat) (operations : list string) : py Dataset :=
  match operations with
  | [] => ret data
  | raw :: rest => data' <- step data idx raw ;; run data' (S idx) rest
  end.

(** [fs path] is the result of [readlines] on the file [path], [None] when
    opening it raises [FileNotFoundError]. *)
Definition execute_operations (fs : string -> option (list string))
    (data : Dataset) (operations_file : string) : py unit :=
  match fs operations_file with
  | None =>
      print ("Error: Operations file '" +:+ operations_file +:+ "' not found.") ;;;
      raise (SystemExit 1)
  | Some operations => run data 0 operations ;;; ret tt
  end.

(** [argv] is [sys.argv] and [get_data] the dataset that [get_data()] of
    the data module returns. *)
Definition main (fs : string -> option (list string)) (get_data : Dataset)
    (argv : list string) : py unit :=
  if (length argv <? 2)%nat then
    print "Usage: python3 hw4.py <operations_file>" ;;;
    raise (SystemExit 1)
  else
    operations_file <- lift (index argv 1) ;;
    let data := get_data in
    print (pretty (length data) +:+ " records loaded") ;;;
    execute_operations fs data operations_file.

End Program.

(** ** A concrete runtime: Python integers and binary64 floats *)

Module Binary64.

Local Open Scope Z_scope.

(** A Python number is an [int] or a [float] (IEEE 754 binary64). *)
Inductive pynum : Type :=
| PyInt (z : Z)
| PyFloat (f : spec_float).

Definition prec : Z := 53.
Definition emax : Z := 1024.

(** The float nearest to the integer [z] (ties to even), [float(z)] for the
    integers in the range of binary64. *)
Definition float_of_Z (z : Z) : spec_float := binary_normalize prec emax z 0 false.

(** The float nearest to [(-1)^s * p / q]. *)
Definition float_of_ratio (s : bool) (p q : positive) : spec_float :=
  SFdiv prec emax (S754_finite s p 0) (S754_finite false q 0).

(** The float nearest to [(-1)^s * m * 10^k]. *)
Definition float_of_decimal (s : bool) (m : Z) (k : Z) : spec_float :=
  match m with
  | Zpos p =>
      match k with
      | Zneg j => float_of_ratio s p (10 ^ j)%positive
      | _ => binary_normalize prec emax (cond_Zopp s (Zpos p * 10 ^ k)) 0 s
      end
  | _ => S754_zero s
  end.

Definition to_float (x : pynum) : spec_float :=
  match x with
  | PyInt z => float_of_Z z
  | PyFloat f => f
  end.

Definition add (x y : pynum) : pynum :=
  match x, y with
  | PyInt a, PyInt b => PyInt (a + b)
  | _, _ => PyFloat (SFadd prec emax (to_float x) (to_float y))
  end.

Definition mul (x y : pynum) : pynum :=
  match x, y with
  | PyInt a, PyInt b => PyInt (a * b)
  | _, _ => PyFloat (SFmul prec emax (to_float x) (to_float y))
  end.

(** True division by a non-zero divisor (the program divides by 100 and by
    a total that it has checked to be positive); on two integers it is the
    division of their floats, which is Python's for integers below 2^53. *)
Definition div (x y : pynum) : pynum :=
  PyFloat (SFdiv prec emax (to_float x) (to_float y)).

(** The range of a C [long]. *)
Definition fits_long (z : Z) : bool := (- 2 ^ 63 <=? z) && (z <? 2 ^ 63).

(** The general loop of [sum]: [result = result + item]. *)
Definition sum_general (result : pynum) (items : list pynum) : pynum :=
  fold_left add items result.

(** The end of the float loop of [sum]: the compensation is added when it
    is finite and not zero. *)
Definition sum_float_result (f c : spec_float) : spec_float :=
  match c with
  | S754_finite _ _ _ => SFadd prec emax f c
  | _ => f
  end.

(** The float loop of [sum] (the compensated summation of CPython 3.12):
    [f] is the running sum and [c] the running compensation. *)
Fixpoint sum_float (f c : spec_float) (items : list pynum) : pynum :=
  match items with
  | [] => PyFloat (sum_float_result f c)
  | PyFloat x :: rest =>
      let t := SFadd prec emax f x in
      let d :=
        if SFleb (SFabs x) (SFabs f)
        then SFadd prec emax (SFsub prec emax f t) x
        else SFadd prec emax (SFsub prec emax x t) f in
      sum_float t (SFadd prec emax c d) rest
  | PyInt z :: rest =>
      if fits_long z then sum_float (SFadd prec emax f (float_of_Z z)) c rest
      else sum_general (add (PyFloat (sum_float_result f c)) (PyInt z)) rest
  end.

(** The integer loop of [sum]: [i] is the running sum. *)
Fixpoint sum_int (i : Z) (items : list pynum) : pynum :=
  match items with
  | [] => PyInt i
  | PyInt z :: rest =>
      if fits_long z && fits_long (i + z) then sum_int (i + z) rest
      else sum_general (PyInt (i + z)) rest
  | PyFloat x :: rest =>
      sum_float (SFadd prec emax (float_of_Z i) x) (S754_zero false) rest
  end.

(** [sum(items)], from the integer 0. *)
Definition sum (items : list pynum) : pynum := sum_int 0 items.

(** Comparison of an integer with a float, on their exact values. *)
Definition compare_Z_float (z : Z) (f : spec_float) : option comparison :=
  match f with
  | S754_nan => None
  | S754_infinity s => Some (if s then Gt else Lt)
  | S754_zero _ => Some (z ?= 0)%Z
  | S754_finite s m e =>
      Some (match e with
            | Zneg k => (z * 2 ^ Zpos k ?= cond_Zopp s (Zpos m))%Z
            | _ => (z ?= cond_Zopp s (Zpos m) * 2 ^ e)%Z
            end)
  end.

Definition compare (x y : pynum) : option comparison :=
  match x, y with
  | PyInt a, PyInt b => Some (a ?= b)%Z
  | PyFloat f, PyFloat g => SFcompare f g
  | PyInt a, PyFloat g => compare_Z_float a g
  | PyFloat f, PyInt b => option_map CompOpp (compare_Z_float b f)
  end.

Definition lt (x y : pynum) : bool :=
  match compare x y with Some Lt => true | _ => false end.

Definition gt (x y : pynum) : bool :=
  match compare x y with Some Gt => true | _ => false end.

(** *** [float(s)] *)

Definition is_digit (c : ascii) : bool :=
  let n := nat_of_ascii c in (48 <=? n)%nat && (n <=? 57)%nat.

Definition digit_val (c : ascii) : Z := Z.of_nat (nat_of_ascii c) - 48.

(** Reads a [digitpart] (digits, single underscores between digits) from
    the front of [s]: the number read so far, how many digits, the rest. *)
Fixpoint digitpart (acc : Z) (n : nat) (s : string) : Z * nat * string :=
  match s with
  | String c s' =>
      if is_digit c then digitpart (10 * acc + digit_val c) (S n) s'
      else if Ascii.eqb c "_" && (0 <? n)%nat then
        match s' with
        | String c' _ => if is_digit c' then digitpart acc n s' else (acc, n, s)
        | EmptyString => (acc, n, s)
        end
      else (acc, n, s)
  | EmptyString => (acc, n, s)
  end.

Definition lower_char (c : ascii) : ascii :=
  let n := nat_of_ascii c in
  if (65 <=? n)%nat && (n <=? 90)%nat then ascii_of_nat (n + 32) else c.

Fixpoint lower (s : string) : string :=
  match s with
  | EmptyString => EmptyString
  | String c s' => String (lower_char c) (lower s')
  end.

(** An optional sign: whether it is a minus, and the rest. *)
Definition read_sign (s : string) : bool * string :=
  match s with
  | String "-" s' => (true, s')
  | String "+" s' => (false, s')
  | _ => (false, s)
  end.

(** An optional exponent at the end of the literal. *)
Definition read_exponent (s : string) : option Z :=
  match s with
  | EmptyString => Some 0%Z
  | String c s' =>
      if Ascii.eqb (lower_char c) "e" then
        let '(neg, s1) := read_sign s' in
        match digitpart 0 0 s1 with
        | (x, S _, EmptyString) => Some (cond_Zopp neg x)
        | _ => None
        end
      else None
  end.

(** [floatnumber]: digits, an optional point and fraction, an optional
    exponent; at least one digit before the exponent. *)
Definition read_floatnumber (neg : bool) (s : string) : option spec_float :=
  let '(ip, ni, s1) := digitpart 0 0 s in
  let '(m, nf, s2) :=
    match s1 with
    | String "." s1' =>
        digitpart ip 0 s1'
    | _ => (ip, 0%nat, s1)
    end in
  if (ni + nf =? 0)%nat then None
  else
    match read_exponent s2 with
    | Some x => Some (float_of_decimal neg m (x - Z.of_nat nf))
    | None => None
    end.

Definition parse_float (s : string) : option pynum :=
  let '(neg, body) := read_sign (PyStr.strip s) in
  let l := lower body in
  if decide (l = "inf") then Some (PyFloat (S754_infinity neg))
  else if decide (l = "infinity") then Some (PyFloat (S754_infinity neg))
  else if decide (l = "nan") then Some (PyFloat S754_nan)
  else option_map PyFloat (read_floatnumber neg body).

(** *** Printing *)

Fixpoint zeros (n : nat) : string :=
  match n with
  | O => EmptyString
  | S k => String "0" (zeros k)
  end.

(** [s.zfill(w)] for a string of digits. *)
Definition zfill (w : nat) (s : string) : string :=
  zeros (w - String.length s) +:+ s.

Definition sign_str (s : bool) : string := if s then "-" else EmptyString.

(** The exact value [m * 2^e] of a positive float as a fraction. *)
Definition ratio_of (m : positive) (e : Z) : Z * Z :=
  match e with
  | Zneg k => (Zpos m, 2 ^ Zpos k)
  | _ => (Zpos m * 2 ^ e, 1)
  end.

(** The integer nearest to [p / q], ties to even. *)
Definition round_half_even (p q : Z) : Z :=
  let d := p / q in
  match (2 * (p mod q) ?= q) with
  | Lt => d
  | Gt => d + 1
  | Eq => if Z.even d then d else d + 1
  end.

(** [f"{x:.15f}"] on a float. *)
Definition format_15f (f : spec_float) : string :=
  match f with
  | S754_nan => "nan"
  | S754_infinity s => sign_str s +:+ "inf"
  | S754_zero s => sign_str s +:+ "0.000000000000000"
  | S754_finite s m e =>
      let '(p, q) := ratio_of m e in
      let n := round_half_even (p * 10 ^ 15) q in
      sign_str s +:+ pretty (n / 10 ^ 15) +:+ "." +:+ zfill 15 (pretty (n mod 10 ^ 15))
  end.

(** The number of decimal digits of a positive integer. *)
Definition ndigits (z : Z) : Z := Z.of_nat (String.length (pretty z)).

(** [floor (log10 (p / q))] for positive [p] and [q]. *)
Definition floor_log10 (p q : Z) : Z :=
  if q <=? p then ndigits (p / q) - 1
  else - ndigits ((q + p - 1) / p - 1).

(** The shortest decimal [d * 10^k] that reads back as the float [m * 2^e],
    the nearest to it among those: tries [n], [n+1], ... significant
    digits. *)
Fixpoint shortest (fuel n : nat) (m : positive) (e : Z) : Z * Z :=
  match fuel with
  | O => (0, 0)
  | S fuel' =>
      let '(p, q) := ratio_of m e in
      let k := Z.of_nat n - 1 - floor_log10 p q in
      let '(P, Q) := if 0 <=? k then (p * 10 ^ k, q) else (p, q * 10 ^ (- k)) in
      let d := P / Q in
      let '(c1, c2) :=
        match (2 * (P mod Q) ?= Q) with
        | Lt => (d, d + 1)
        | Gt => (d + 1, d)
        | Eq => if Z.even d then (d, d + 1) else (d + 1, d)
        end in
      let reads_back c :=
        SFeqb (float_of_decimal false c (- k)) (S754_finite false m e) in
      if reads_back c1 then (c1, - k)
      else if reads_back c2 then (c2, - k)
      else shortest fuel' (S n) m e
  end.

(** [repr(x)] of a positive finite float: positional notation when the
    decimal point falls within the digits or at most 4 places before and 16
    after their start, scientific notation otherwise. *)
Definition repr_finite (m : positive) (e : Z) : string :=
  let '(d, k) := shortest 17 1 m e in
  let all := pretty d in
  let decpt := Z.of_nat (String.length all) + k in
  let digits := PyStr.rstrip "0" all in
  let n := String.length digits in
  if (-4 <? decpt) && (decpt <=? 16) then
    if decpt <=? 0 then "0." +:+ zeros (Z.to_nat (- decpt)) +:+ digits
    else if Z.of_nat n <=? decpt then
      digits +:+ zeros (Z.to_nat decpt - n) +:+ ".0"
    else substring 0 (Z.to_nat decpt) digits +:+ "." +:+
         substring (Z.to_nat decpt) (n - Z.to_nat decpt) digits
  else
    substring 0 1 digits +:+
    (if (1 <? n)%nat then "." +:+ substring 1 (n - 1) digits else EmptyString) +:+
    "e" +:+ (if decpt - 1 <? 0 then "-" else "+") +:+
    zfill 2 (pretty (Z.abs (decpt - 1))).

(** [repr(x)] on a float. *)
Definition repr_float (f : spec_float) : string :=
  match f with
  | S754_nan => "nan"
  | S754_infinity s => sign_str s +:+ "inf"
  | S754_zero s => sign_str s +:+ "0.0"
  | S754_finite s m e => sign_str s +:+ repr_finite m e
  end.

(** [repr(x)], which is also [str(x)]. *)
Definition repr (x : pynum) : string :=
  match x with
  | PyInt z => pretty z
  | PyFloat f => repr_float f
  end.

#[export] Instance runtime : PyNum := {|
  num := pynum;
  int_0 := PyInt 0;
  int_100 := PyInt 100;
  num_sum := sum;
  num_mul := mul;
  num_div := div;
  num_lt := lt;
  num_gt := gt;
  float_of_str := parse_float;
  num_str := repr;
  num_repr := repr;
  num_format_15f := fun x => format_15f (to_float x)
|}.

End Binary64.

(** ** The specification's vocabulary *)

Section Vocabulary.

Context `{PyNum}.

(** The four category names. *)
Definition categories : list string :=
  ["Population"; "Education"; "Ethnicities"; "Income"].

(** Field resolution in the specification's words: the field is cut at its
    first dot into a category and a key name, the category selects one of
    the four mappings of the record, and the key name is looked up in it. *)
Definition resolve (entry : CountyDemographics) (field : string) : exn + num :=
  let '(category, key_name) := PyStr.cut_first "." field in
  if decide (category = "Population") then getitem (population entry) key_name
  else if decide (category = "Education") then getitem (education entry) key_name
  else if decide (category = "Ethnicities") then getitem (ethnicities entry) key_name
  else if decide (category = "Income") then getitem (income entry) key_name
  else inl (ValueError ("Field '" +:+ field +:+ "' not found in entry.")).

(** The field resolves on the record, to the value [v]. *)
Definition resolves_to (field : string) (entry : CountyDemographics) (v : num) : Prop :=
  get_field_value entry field = inr v.

(** The field resolves on the record. *)
Definition resolves (field : string) (entry : CountyDemographics) : Prop :=
  exists v, resolves_to field entry v.

(** The total population: the sum over the records of
    [population["2014 Population"]], a missing entry counting as 0. *)
Definition total_population (data : Dataset) : num :=
  num_sum
    (map (fun entry =>
            match population entry !! "2014 Population" with
            | Some p => p
            | None => int_0
            end) data).

(** The weighted sub-population of records whose field values are [values]:
    the sum of [population["2014 Population"] * (value / 100)]. *)
Definition sub_population (data : Dataset) (values : list num) : num :=
  num_sum
    (zip_with (fun entry v =>
                 num_mul (match population entry !! "2014 Population" with
                          | Some p => p
                          | None => int_0
                          end)
                         (num_div v int_100)) data values).

(** A decimal numeral [int_part.fraction] with the trailing zeros of the
    fraction removed, and the point too when no fraction digit is left. *)
Definition trim_fraction (int_part fraction : string) : string :=
  match PyStr.rstrip "0" fraction with
  | EmptyString => int_part
  | f => int_part +:+ "." +:+ f
  end.

(** The three filter operations. *)
Inductive filter_op : Type :=
| FilterState (st : string)
| FilterGt (field : string) (value : num)
| FilterLt (field : string) (value : num).

Definition run_filter (op : filter_op) (data : Dataset) : py Dataset :=
  match op with
  | FilterState st => filter_state data st
  | FilterGt field value => filter_gt data field value
  | FilterLt field value => filter_lt data field value
  end.

(** The predicate of a filter operation on a record. *)
Definition satisfies (op : filter_op) (entry : CountyDemographics) : Prop :=
  match op with
  | FilterState st => state entry = st
  | FilterGt field value =>
      exists v, resolves_to field entry v /\ num_gt v value = true
  | FilterLt field value =>
      exists v, resolves_to field entry v /\ num_lt v value = true
  end.

(** The opcodes the interpreter recognises. *)
Definition recognised (op : string) : bool :=
  bool_decide (op = "display") || bool_decide (op = "filter-state")
  || bool_decide (op = "filter-gt") || bool_decide (op = "filter-lt")
  || bool_decide (op = "population-total")
  || PyStr.startswith op "population" || PyStr.startswith op "percent".

(** The error line of the interpreter for the line numbered [n] (from 1)
    with text [text]. *)
Definition error_line (n : nat) (text : string) : string :=
  "Error: Malformed line " +:+ pretty n +:+ ": " +:+ text.

End Vocabulary.

(** ** Sample data on the concrete runtime *)

Module Examples.

Import Binary64.

(** The float written [s]. *)
Definition number (s : string) : pynum := default (PyFloat S754_nan) (parse_float s).

(** The end of a line of the operations file. *)
Definition LF : string := String (ascii_of_nat 10) EmptyString.

Definition slo : CountyDemographics := {|
  age := list_to_map [("< 5", number "4.7"); ("< 18", number "18.3"); ("> 65", number "17.1")];
  county := "San Luis Obispo County";
  education := list_to_map [("Bachelor's Degree or Higher", number "31.5");
                            ("High School or Higher", number "89.6")];
  ethnicities := list_to_map [("Asian Alone", number "3.8"); ("White Alone", number "89.2")];
  income := list_to_map [("Median Household Income", PyInt 58697);
                         ("Per Capita Income", PyInt 29954);
                         ("Persons Below Poverty Level", number "14.3")];
  population := list_to_map [("2014 Population", PyInt 279083)];
  state := "CA"
|}.

Definition yolo : CountyDemographics := {|
  age := list_to_map [("< 5", number "5.9"); ("< 18", number "21.7"); ("> 65", number "11.1")];
  county := "Yolo County";
  education := list_to_map [("Bachelor's Degree or Higher", number "37.9");
                            ("High School or Higher", number "84.3")];
  ethnicities := list_to_map [("Asian Alone", number "13.8"); ("White Alone", number "75.1")];
  income := list_to_map [("Median Household Income", PyInt 55918);
                         ("Per Capita Income", PyInt 27730);
                         ("Persons Below Poverty Level", number "19.1")];
  population := list_to_map [("2014 Population", PyInt 207590)];
  state := "CA"
|}.

(** A record whose education mapping has no entry. *)
Definition bare : CountyDemographics := {|
  age := ∅;
  county := "Kalawao County";
  education := ∅;
  ethnicities := ∅;
  income := ∅;
  population := list_to_map [("2014 Population", PyInt 100)];
  state := "HI"
|}.

(** A record with a population of 0. *)
Definition empty_county : CountyDemographics := {|
  age := ∅;
  county := "Ghost County";
  education := list_to_map [("Bachelor's Degree or Higher", number "10.0")];
  ethnicities := ∅;
  income := ∅;
  population := list_to_map [("2014 Population", PyInt 0)];
  state := "NV"
|}.

Definition bachelors : string := "Education.Bachelor's Degree or Higher".

End Examples.

(** ** Outcomes of lines and filters *)

Section Outcomes.

Context `{PyNum}.

(** The opcodes of the three filter operations. *)
Definition filter_opcodes : list string :=
  ["filter-state"; "filter-gt"; "filter-lt"].

(** The line a filter operation prints when it keeps [n] records. *)
Definition filter_line (op : filter_op) (n : nat) : string :=
  match op with
  | FilterState st =>
      "Filter: state == " +:+ st +:+ " (" +:+ pretty n +:+ " entries)"
  | FilterGt field value =>
      "Filter: " +:+ field +:+ " gt " +:+ num_str value +:+ " ("
      +:+ pretty n +:+ " entries)"
  | FilterLt field value =>
      "Filter: " +:+ field +:+ " lt " +:+ num_str value +:+ " ("
      +:+ pretty n +:+ " entries)"
  end.

(** Whether a filter operation keeps a record: the test of its
    comprehension, [false] where the field does not resolve. *)
Definition keeps (op : filter_op) (entry : CountyDemographics) : bool :=
  match op with
  | FilterState st => bool_decide (state entry = st)
  | FilterGt field value =>
      match get_field_value entry field with
      | inr v => num_gt v value
      | inl _ => false
      end
  | FilterLt field value =>
      match get_field_value entry field with
      | inr v => num_lt v value
      | inl _ => false
      end
  end.

(** The records on which a filter operation can evaluate its test. *)
Definition testable (op : filter_op) (entry : CountyDemographics) : Prop :=
  match op with
  | FilterState _ => True
  | FilterGt field _ | FilterLt field _ => resolves field entry
  end.

(** The filter operation of the opcodes [filter-gt] and [filter-lt]. *)
Definition comparison_filter (op : string)
  : option (string -> num -> filter_op) :=
  if decide (op = "filter-gt") then Some FilterGt
  else if decide (op = "filter-lt") then Some FilterLt
  else None.

(** The exceptions the handler of the loop catches. *)
Definition caught (e : exn) : Prop :=
  e = IndexError \/ exists msg, e = ValueError msg.

(** What a line can do to the dataset [data]: return a subsequence of it,
    or raise without having printed. *)
Definition line_outcome (data : Dataset) (m : py Dataset) : Prop :=
  match m with
  | (_, inr data') => sublist data' data
  | (out, inl e) => out = [] /\ (caught e \/ exists key, e = KeyError key)
  end.

End Outcomes.

(** * Properties *)

(** Let [simpl] compute string concatenations. *)
#[local] Arguments String.append !_ _ / : simpl nomatch.

(** ** String methods *)

Lemma split_not_nil (sep : ascii) (s : string) : PyStr.split sep s <> [].
Proof.
  destruct s as [|c s]; simpl; [discriminate|].
  destruct (Ascii.eqb c sep); [discriminate|].
  destruct (PyStr.split sep s); discriminate.
Qed.

(** Joining the parts of a split with the separator gives the string back. *)
Lemma join_split (sep : ascii) (s : string) :
  PyStr.join (String sep EmptyString) (PyStr.split sep s) = s.
Proof.
  unfold PyStr.join. induction s as [|c s IH]; simpl; [reflexivity|].
  pose proof (split_not_nil sep s) as Hne.
  destruct (Ascii.eqb_spec c sep) as [->|Hc].
  - simpl. destruct (PyStr.split sep s) as [|p ps]; [congruence|].
    simpl in *. now rewrite IH.
  - destruct (PyStr.split sep s) as [|p ps]; [congruence|].
    simpl in *. destruct ps; simpl in *; now rewrite <- IH.
Qed.

(** The first part of a split and the join of the others are the two sides
    of the first separator. *)
Lemma split_cut_first (sep : ascii) (s prefix : string) (rest : list string) :
  PyStr.split sep s = prefix :: rest ->
  PyStr.cut_first sep s = (prefix, PyStr.join (String sep EmptyString) rest).
Proof.
  revert prefix rest. induction s as [|c s IH]; simpl; intros prefix rest Hs.
  - now inversion Hs.
  - destruct (Ascii.eqb c sep).
    + inversion Hs; subst. now rewrite join_split.
    + pose proof (split_not_nil sep s) as Hne.
      destruct (PyStr.split sep s) as [|p ps]; [congruence|].
      inversion Hs; subst. now rewrite (IH p rest eq_refl).
Qed.

(** [cut_first] cuts at the first separator: none occurs before the cut. *)
Lemma cut_first_spec (sep : ascii) (s : string) :
  let '(a, b) := PyStr.cut_first sep s in
  PyStr.contains sep a = false /\
  (s = a +:+ String sep b \/
   (PyStr.contains sep s = false /\ a = s /\ b = EmptyString)).
Proof.
  induction s as [|c s IH]; simpl.
  - split; [reflexivity|]. right. auto.
  - destruct (Ascii.eqb c sep) eqn:Hc.
    + apply Ascii.eqb_eq in Hc. subst. split; [reflexivity|]. now left.
    + destruct (PyStr.cut_first sep s) as [a b]. simpl. rewrite Hc. simpl.
      destruct IH as [Ha [Hs | (Hn & -> & ->)]].
      * split; [assumption|]. left. now rewrite Hs.
      * split; [assumption|]. right. auto.
Qed.

(** ** Field resolution *)

Section FieldResolution.

Context `{PyNum}.

Lemma getitem_not_ValueError {V} (d : gmap string V) (k msg : string) :
  getitem d k <> inl (ValueError msg).
Proof. unfold getitem. destruct (d !! k); discriminate. Qed.

(** The code resolves a field as the specification words it. *)
Lemma get_field_value_resolve (entry : CountyDemographics) (field : string) :
  get_field_value entry field = resolve entry field.
Proof.
  unfold get_field_value, resolve.
  pose proof (split_not_nil "." field) as Hne.
  destruct (PyStr.split "." field) as [|prefix rest] eqn:Hs; [congruence|].
  rewrite (split_cut_first _ _ _ _ Hs).
  repeat case_decide; subst; try discriminate; reflexivity.
Qed.

(** C3: [get_field_value] cuts the field at its first dot only into a
    category and a key name (so the key name may contain dots), compares the
    category exactly with the four names, looks the key name up in the
    mapping of that category, and raises the "unknown field" [ValueError]
    exactly when the category is none of the four names. *)
Theorem get_field_value_first_dot (entry : CountyDemographics) (field : string) :
  let category := fst (PyStr.cut_first "." field) in
  let key_name := snd (PyStr.cut_first "." field) in
  (PyStr.contains "." category = false /\
   (field = category +:+ "." +:+ key_name \/
    (PyStr.contains "." field = false /\ category = field /\ key_name = EmptyString))) /\
  get_field_value entry field =
    (if decide (category = "Population") then getitem (population entry) key_name
     else if decide (category = "Education") then getitem (education entry) key_name
     else if decide (category = "Ethnicities") then getitem (ethnicities entry) key_name
     else if decide (category = "Income") then getitem (income entry) key_name
     else inl (ValueError ("Field '" +:+ field +:+ "' not found in entry."))) /\
  ((exists msg, get_field_value entry field = inl (ValueError msg))
   <-> category ∉ categories).
Proof.
  intros category key_name.
  assert (Hres : get_field_value entry field =
    (if decide (category = "Population") then getitem (population entry) key_name
     else if decide (category = "Education") then getitem (education entry) key_name
     else if decide (category = "Ethnicities") then getitem (ethnicities entry) key_name
     else if decide (category = "Income") then getitem (income entry) key_name
     else inl (ValueError ("Field '" +:+ field +:+ "' not found in entry.")))).
  { rewrite get_field_value_resolve. unfold resolve.
    subst category key_name. now destruct (PyStr.cut_first "." field). }
  split; [|split; [exact Hres|]].
  - pose proof (cut_first_spec "." field) as Hcut.
    subst category key_name. destruct (PyStr.cut_first "." field) as [a b].
    exact Hcut.
  - rewrite Hres. unfold categories. rewrite !elem_of_cons, elem_of_nil.
    split.
    + intros [msg Hmsg].
      repeat case_decide;
        try (exfalso; eapply getitem_not_ValueError; exact Hmsg).
      tauto.
    + intros Hnot. repeat case_decide; try tauto. eauto.
Qed.

(** A key name with dots in it: only the first dot separates. *)
Example get_field_value_dotted_key (entry : CountyDemographics) :
  get_field_value entry "Income.Median.Household" =
  getitem (income entry) "Median.Household".
Proof. reflexivity. Qed.

(** The category is compared exactly: another capitalisation is unknown. *)
Example get_field_value_case_sensitive (entry : CountyDemographics) :
  get_field_value entry "income.Per Capita Income" =
  inl (ValueError "Field 'income.Per Capita Income' not found in entry.").
Proof. reflexivity. Qed.

End FieldResolution.

(** ** The filters *)

Section Filters.

Context `{PyNum}.

Implicit Types (data filtered : Dataset) (cond : CountyDemographics -> exn + bool).

Lemma comprehension_sublist cond data filtered :
  comprehension cond data = inr filtered -> sublist filtered data.
Proof.
  revert filtered. induction data as [|entry rest IH]; simpl; intros filtered Hc.
  - inversion Hc. constructor.
  - destruct (cond entry) as [e|b]; [discriminate|].
    destruct (comprehension cond rest) as [e|l]; [discriminate|].
    inversion Hc; subst. destruct b; constructor; now apply IH.
Qed.

Lemma comprehension_Forall cond data filtered :
  comprehension cond data = inr filtered ->
  Forall (fun entry => cond entry = inr true) filtered.
Proof.
  revert filtered. induction data as [|entry rest IH]; simpl; intros filtered Hc.
  - inversion Hc. constructor.
  - destruct (cond entry) as [e|b] eqn:Hb; [discriminate|].
    destruct (comprehension cond rest) as [e|l]; [discriminate|].
    inversion Hc; subst. destruct b; [constructor; [assumption|]|]; now apply IH.
Qed.

Lemma comprehension_all cond data :
  Forall (fun entry => cond entry = inr true) data ->
  comprehension cond data = inr data.
Proof.
  induction 1 as [|entry rest Hb _ IH]; simpl; [reflexivity|].
  now rewrite Hb, IH.
Qed.

Lemma comprehension_none cond data :
  Forall (fun entry => cond entry = inr false) data ->
  comprehension cond data = inr [].
Proof.
  induction 1 as [|entry rest Hb _ IH]; simpl; [reflexivity|].
  now rewrite Hb, IH.
Qed.

Lemma comprehension_total cond data :
  Forall (fun entry => exists b, cond entry = inr b) data ->
  exists filtered, comprehension cond data = inr filtered.
Proof.
  induction 1 as [|entry rest [b Hb] _ [l IH]]; simpl; [eauto|].
  rewrite Hb, IH. eauto.
Qed.

(** The comprehension raises the exception of the first record on which
    its condition raises. *)
Lemma comprehension_raises cond data entry rest (e : exn) :
  Forall (fun x => exists b, cond x = inr b) data ->
  cond entry = inl e ->
  comprehension cond (data ++ entry :: rest) = inl e.
Proof.
  intros Hok He. induction Hok as [|x data [b Hb] _ IH]; simpl.
  - now rewrite He.
  - now rewrite Hb, IH.
Qed.

Lemma filter_state_eq data st :
  filter_state data st =
  (["Filter: state == " +:+ st +:+ " ("
    +:+ pretty (length (List.filter (fun entry => bool_decide (state entry = st)) data))
    +:+ " entries)"],
   inr (List.filter (fun entry => bool_decide (state entry = st)) data)).
Proof. reflexivity. Qed.

Lemma filter_gt_inv data field value out filtered :
  filter_gt data field value = (out, inr filtered) ->
  comprehension (cond_gt field value) data = inr filtered /\
  out = ["Filter: " +:+ field +:+ " gt " +:+ num_str value +:+ " ("
         +:+ pretty (length filtered) +:+ " entries)"].
Proof.
  unfold filter_gt, lift, bind. simpl.
  destruct (comprehension (cond_gt field value) data) as [e|l]; [discriminate|].
  simpl. intros Hr. inversion Hr; subst. auto.
Qed.

Lemma filter_lt_inv data field value out filtered :
  filter_lt data field value = (out, inr filtered) ->
  comprehension (cond_lt field value) data = inr filtered /\
  out = ["Filter: " +:+ field +:+ " lt " +:+ num_str value +:+ " ("
         +:+ pretty (length filtered) +:+ " entries)"].
Proof.
  unfold filter_lt, lift, bind. simpl.
  destruct (comprehension (cond_lt field value) data) as [e|l]; [discriminate|].
  simpl. intros Hr. inversion Hr; subst. auto.
Qed.

Lemma filter_gt_intro data field value filtered :
  comprehension (cond_gt field value) data = inr filtered ->
  filter_gt data field value =
  (["Filter: " +:+ field +:+ " gt " +:+ num_str value +:+ " ("
    +:+ pretty (length filtered) +:+ " entries)"], inr filtered).
Proof. intros Hc. unfold filter_gt, lift, bind. now rewrite Hc. Qed.

Lemma filter_lt_intro data field value filtered :
  comprehension (cond_lt field value) data = inr filtered ->
  filter_lt data field value =
  (["Filter: " +:+ field +:+ " lt " +:+ num_str value +:+ " ("
    +:+ pretty (length filtered) +:+ " entries)"], inr filtered).
Proof. intros Hc. unfold filter_lt, lift, bind. now rewrite Hc. Qed.

Lemma cond_gt_true field value entry :
  cond_gt field value entry = inr true <-> satisfies (FilterGt field value) entry.
Proof.
  unfold cond_gt, satisfies, resolves_to.
  destruct (get_field_value entry field) as [e|v]; split.
  - discriminate.
  - intros (v & Hv & _). discriminate.
  - intros Hb. exists v. split; [reflexivity|congruence].
  - intros (w & Hw & Hgt). congruence.
Qed.

Lemma cond_lt_true field value entry :
  cond_lt field value entry = inr true <-> satisfies (FilterLt field value) entry.
Proof.
  unfold cond_lt, satisfies, resolves_to.
  destruct (get_field_value entry field) as [e|v]; split.
  - discriminate.
  - intros (v & Hv & _). discriminate.
  - intros Hb. exists v. split; [reflexivity|congruence].
  - intros (w & Hw & Hlt). congruence.
Qed.

Lemma list_filter_sublist {A} (f : A -> bool) (l : list A) :
  sublist (List.filter f l) l.
Proof.
  induction l as [|a l IH]; simpl; [constructor|].
  destruct (f a); now constructor.
Qed.

Lemma list_filter_Forall {A} (f : A -> bool) (l : list A) :
  Forall (fun a => f a = true) (List.filter f l).
Proof.
  induction l as [|a l IH]; simpl; [constructor|].
  destruct (f a) eqn:Hf; [constructor|]; assumption.
Qed.

Lemma list_filter_all {A} (f : A -> bool) (l : list A) :
  Forall (fun a => f a = true) l -> List.filter f l = l.
Proof.
  induction 1 as [|a l Hf _ IH]; simpl; [reflexivity|].
  now rewrite Hf, IH.
Qed.

(** A filter whose field does not resolve on a record raises the exception
    of the resolution, whatever it is, and prints nothing. *)
Lemma filter_raises (field : string) (value : num) data entry rest (e : exn) :
  Forall (resolves field) data ->
  get_field_value entry field = inl e ->
  filter_gt (data ++ entry :: rest) field value = ([], inl e) /\
  filter_lt (data ++ entry :: rest) field value = ([], inl e).
Proof.
  intros Hres He. unfold filter_gt, filter_lt, lift, bind.
  rewrite (comprehension_raises (cond_gt field value) data entry rest e),
          (comprehension_raises (cond_lt field value) data entry rest e);
    try (unfold cond_gt, cond_lt; now rewrite He);
    try (eapply Forall_impl; [exact Hres|]; intros x [v Hv];
         unfold cond_gt, cond_lt; unfold resolves_to in Hv; rewrite Hv; eauto).
  split; reflexivity.
Qed.

(** C8: a filter operation that succeeds keeps at most as many records as
    it was given, every record it keeps satisfies the predicate of the
    filter, and running the same filter on its own result prints the same
    count and returns the same records. *)
Theorem filter_sound (op : filter_op) data out filtered :
  run_filter op data = (out, inr filtered) ->
  length filtered <= length data /\
  Forall (satisfies op) filtered /\
  run_filter op filtered = (out, inr filtered).
Proof.
  destruct op as [st|field value|field value]; simpl; intros Hrun.
  - rewrite filter_state_eq in Hrun. inversion Hrun; subst; clear Hrun.
    set (f := fun entry : CountyDemographics => bool_decide (state entry = st)).
    split; [apply sublist_length, list_filter_sublist|].
    split.
    + eapply Forall_impl; [apply list_filter_Forall|].
      intros entry Hb. now apply bool_decide_eq_true in Hb.
    + rewrite filter_state_eq. fold f.
      now rewrite (list_filter_all f _ (list_filter_Forall f data)).
  - apply filter_gt_inv in Hrun as [Hc ->].
    split; [eapply sublist_length, comprehension_sublist; eassumption|].
    pose proof (comprehension_Forall _ _ _ Hc) as Hall.
    split.
    + eapply Forall_impl; [exact Hall|]. intros entry. apply cond_gt_true.
    + apply filter_gt_intro, comprehension_all, Hall.
  - apply filter_lt_inv in Hrun as [Hc ->].
    split; [eapply sublist_length, comprehension_sublist; eassumption|].
    pose proof (comprehension_Forall _ _ _ Hc) as Hall.
    split.
    + eapply Forall_impl; [exact Hall|]. intros entry. apply cond_lt_true.
    + apply filter_lt_intro, comprehension_all, Hall.
Qed.

(** C10: the result of a filter operation that succeeds is a subsequence of
    its input: the records kept, in the order of the input, none repeated
    and none added. *)
Theorem filter_subsequence (op : filter_op) data out filtered :
  run_filter op data = (out, inr filtered) ->
  sublist filtered data.
Proof.
  destruct op as [st|field value|field value]; simpl; intros Hrun.
  - rewrite filter_state_eq in Hrun. inversion Hrun; subst.
    apply list_filter_sublist.
  - apply filter_gt_inv in Hrun as [Hc _]. eapply comprehension_sublist, Hc.
  - apply filter_lt_inv in Hrun as [Hc _]. eapply comprehension_sublist, Hc.
Qed.

(** C7: when the field resolves on every record, [filter_gt] with a
    threshold succeeds, and [filter_lt] with the same threshold on its
    result succeeds with no record left.  The runtime fact used is that a
    number greater than the threshold is not less than it. *)
Theorem filter_gt_then_lt_empty data (field : string) (value : num) :
  (forall a b : num, num_gt a b = true -> num_lt a b = false) ->
  Forall (resolves field) data ->
  exists out1 kept out2,
    filter_gt data field value = (out1, inr kept) /\
    filter_lt kept field value = (out2, inr []).
Proof.
  intros Hlaw Hres.
  destruct (comprehension_total (cond_gt field value) data) as [kept Hkept].
  { eapply Forall_impl; [exact Hres|]. intros entry [v Hv].
    unfold cond_gt. rewrite Hv. eauto. }
  eexists _, kept, _. split; [apply filter_gt_intro, Hkept|].
  apply filter_lt_intro, comprehension_none.
  eapply Forall_impl; [apply (comprehension_Forall _ _ _ Hkept)|].
  intros entry Hgt. unfold cond_gt, cond_lt in *.
  destruct (get_field_value entry field) as [e|v]; [discriminate|].
  f_equal. apply Hlaw. congruence.
Qed.

End Filters.

(** ** Stripping trailing characters *)

Lemma rstrip_by_app (p : ascii -> bool) (a b : string) :
  PyStr.rstrip_by p (a +:+ b) =
  match PyStr.rstrip_by p b with
  | EmptyString => PyStr.rstrip_by p a
  | r => a +:+ r
  end.
Proof.
  induction a as [|c a IH]; simpl.
  - destruct (PyStr.rstrip_by p b); reflexivity.
  - rewrite IH. destruct (PyStr.rstrip_by p b) as [|x r]; [reflexivity|].
    destruct a; reflexivity.
Qed.

Lemma rstrip_id (c : ascii) (s : string) :
  PyStr.contains c s = false -> PyStr.rstrip c s = s.
Proof.
  unfold PyStr.rstrip. induction s as [|c' s IH]; simpl; [reflexivity|].
  intros Hc. apply orb_false_iff in Hc as [Hc' Hs].
  rewrite (IH Hs). destruct s; [|reflexivity].
  now rewrite Ascii.eqb_sym, Hc'.
Qed.

Lemma contains_rstrip_by (c : ascii) (p : ascii -> bool) (s : string) :
  PyStr.contains c s = false -> PyStr.contains c (PyStr.rstrip_by p s) = false.
Proof.
  induction s as [|c' s IH]; simpl; [reflexivity|].
  intros Hc. apply orb_false_iff in Hc as [Hc' Hs]. specialize (IH Hs).
  destruct (PyStr.rstrip_by p s) as [|x r].
  - destruct (p c'); simpl; [reflexivity|]. now rewrite Hc'.
  - simpl in *. now rewrite Hc', IH.
Qed.

(** What [rstrip] removes is a suffix made of the stripped characters only,
    and what it leaves does not end with one. *)
Lemma rstrip_by_spec (p : ascii -> bool) (s : string) :
  exists t,
    s = PyStr.rstrip_by p s +:+ t /\
    forallb p (list_ascii_of_string t) = true /\
    forall u c, PyStr.rstrip_by p s = u +:+ String c EmptyString -> p c = false.
Proof.
  induction s as [|c s (t & Hs & Ht & Hlast)]; simpl.
  - exists EmptyString. split; [reflexivity|]. split; [reflexivity|].
    intros [|c1 u] c0 Hu; discriminate.
  - destruct (PyStr.rstrip_by p s) as [|x r] eqn:Hr.
    + destruct (p c) eqn:Hp.
      * exists (String c t). simpl in *. rewrite Hp.
        split; [now rewrite <- Hs|]. split; [assumption|].
        intros [|c1 u] c0 Hu; discriminate.
      * exists t. simpl in *.
        split; [now rewrite <- Hs|]. split; [assumption|].
        intros [|c1 [|c2 u]] c0 Hu; simpl in Hu; inversion Hu; now subst.
    + exists t. simpl in *.
      split; [now rewrite <- Hs|]. split; [assumption|].
      intros [|c1 u] c0 Hu; simpl in Hu; inversion Hu; subst; eauto.
Qed.

(** Stripping the zeros and then the point from a numeral with a point
    strips the trailing zeros of the fraction, and the point when no
    fraction digit is left; the integer part is untouched. *)
Lemma rstrip_numeral (int_part fraction : string) :
  PyStr.contains "." int_part = false ->
  PyStr.contains "." fraction = false ->
  PyStr.rstrip "." (PyStr.rstrip "0" (int_part +:+ "." +:+ fraction)) =
  trim_fraction int_part fraction.
Proof.
  intros Hint Hfrac. unfold trim_fraction, PyStr.rstrip at 2.
  pose proof (contains_rstrip_by "." (Ascii.eqb "0") fraction Hfrac) as Hf.
  rewrite rstrip_by_app. simpl. fold (PyStr.rstrip "0" fraction) in *.
  destruct (PyStr.rstrip "0" fraction) as [|x r]; simpl.
  - unfold PyStr.rstrip at 1. rewrite rstrip_by_app. simpl.
    now apply rstrip_id.
  - unfold PyStr.rstrip at 1. rewrite rstrip_by_app.
    assert (Hkeep : PyStr.rstrip_by (Ascii.eqb ".") (String "." (String x r))
                    = String "." (String x r)).
    { change (String "." (String x r)) with ("." +:+ String x r).
      rewrite rstrip_by_app.
      change (PyStr.rstrip_by (Ascii.eqb ".") (String x r))
        with (PyStr.rstrip "." (String x r)).
      now rewrite (rstrip_id _ _ Hf). }
    now rewrite Hkeep.
Qed.

(** ** The aggregates *)

Section Aggregates.

Context `{PyNum}.

Implicit Types (data : Dataset) (values : list num).

Lemma sum_population_2014 data :
  num_sum (map population_2014 data) = total_population data.
Proof. reflexivity. Qed.

(** When the field resolves on every record, the generator yields the
    weighted terms. *)
Lemma generate_resolved (field : string) data values :
  Forall2 (resolves_to field) data values ->
  generate (sub_population_term field) data =
  inr (zip_with (fun entry v =>
                   num_mul (match population entry !! "2014 Population" with
                            | Some p => p
                            | None => int_0
                            end)
                           (num_div v int_100)) data values).
Proof.
  induction 1 as [|entry v data values Hv _ IH]; simpl; [reflexivity|].
  unfold sub_population_term at 1. unfold resolves_to in Hv.
  now rewrite Hv, IH.
Qed.

Lemma sum_gen_resolved (field : string) data values :
  Forall2 (resolves_to field) data values ->
  sum_gen (sub_population_term field) data = inr (sub_population data values).
Proof.
  intros Hres. unfold sum_gen. now rewrite (generate_resolved _ _ _ Hres).
Qed.

(** The sum raises the exception of the first record that does not
    resolve. *)
Lemma sum_gen_raises (field : string) data values entry rest (e : exn) :
  Forall2 (resolves_to field) data values ->
  get_field_value entry field = inl e ->
  sum_gen (sub_population_term field) (data ++ entry :: rest) = inl e.
Proof.
  intros Hres He. unfold sum_gen.
  assert (Hgen : generate (sub_population_term field) (data ++ entry :: rest)
                 = inl e); [|now rewrite Hgen].
  induction Hres as [|entry' v data values Hv _ IH]; simpl.
  - unfold sub_population_term. now rewrite He.
  - unfold sub_population_term at 1. unfold resolves_to in Hv.
    now rewrite Hv, IH.
Qed.

Lemma population_field_resolved (field : string) data values :
  Forall2 (resolves_to field) data values ->
  population_field data field =
  (["2014 " +:+ field +:+ " population: " +:+
    PyStr.rstrip "." (PyStr.rstrip "0" (num_format_15f (sub_population data values)))],
   inr tt).
Proof.
  intros Hres. unfold population_field, lift, bind.
  now rewrite (sum_gen_resolved _ _ _ Hres).
Qed.

Lemma percent_field_resolved (field : string) data values :
  Forall2 (resolves_to field) data values ->
  percent_field data field =
  (["2014 " +:+ field +:+ " percentage: " +:+
    (if num_gt (total_population data) int_0
     then num_repr (num_mul (num_div (sub_population data values)
                                     (total_population data)) int_100)
     else "0.000000")],
   inr tt).
Proof.
  intros Hres. unfold percent_field, lift, bind.
  rewrite (sum_gen_resolved _ _ _ Hres), sum_population_2014.
  now destruct (num_gt (total_population data) int_0).
Qed.

(** C4: when the field resolves on every record, to [values],
    [population_field] prints the sum over the records of
    [population["2014 Population"]] (0 when missing) times the value
    divided by 100, in the format [.15f] with the trailing zeros and then a
    trailing point stripped: for a numeral [int_part.fraction] this removes
    the trailing zeros of the fraction, and the point with them when the
    fraction is all zeros.  The total that [percent_field] compares with 0
    and divides by is the sum of [population["2014 Population"]], 0 when
    missing. *)
Theorem population_field_prints (field : string) data values :
  Forall2 (resolves_to field) data values ->
  population_field data field =
    (["2014 " +:+ field +:+ " population: " +:+
      PyStr.rstrip "." (PyStr.rstrip "0" (num_format_15f (sub_population data values)))],
     inr tt) /\
  (forall int_part fraction,
     num_format_15f (sub_population data values) = int_part +:+ "." +:+ fraction ->
     PyStr.contains "." int_part = false ->
     PyStr.contains "." fraction = false ->
     population_field data field =
       (["2014 " +:+ field +:+ " population: " +:+ trim_fraction int_part fraction],
        inr tt)) /\
  percent_field data field =
    (["2014 " +:+ field +:+ " percentage: " +:+
      (if num_gt (total_population data) int_0
       then num_repr (num_mul (num_div (sub_population data values)
                                       (total_population data)) int_100)
       else "0.000000")],
     inr tt).
Proof.
  intros Hres. split; [|split].
  - now apply population_field_resolved.
  - intros int_part fraction Hfmt Hint Hfrac.
    rewrite (population_field_resolved _ _ _ Hres), Hfmt.
    now rewrite rstrip_numeral.
  - now apply percent_field_resolved.
Qed.

(** C9, as the code has it: when the field resolves on every record, to
    [values], [percent_field] prints the fixed text [0.000000] after its
    label when the total population is not greater than 0 (no division is
    made on that branch), and [repr] of [(sub_population / total) * 100]
    when it is; on the empty dataset every field prints [0.000000]. *)
Theorem percent_field_prints (field : string) data values :
  Forall2 (resolves_to field) data values ->
  (num_gt (total_population data) int_0 = false ->
   percent_field data field =
     (["2014 " +:+ field +:+ " percentage: 0.000000"], inr tt)) /\
  (num_gt (total_population data) int_0 = true ->
   percent_field data field =
     (["2014 " +:+ field +:+ " percentage: " +:+
       num_repr (num_mul (num_div (sub_population data values)
                                  (total_population data)) int_100)],
      inr tt)) /\
  (num_gt (num_sum []) int_0 = false ->
   forall field', percent_field [] field' =
     (["2014 " +:+ field' +:+ " percentage: 0.000000"], inr tt)).
Proof.
  intros Hres. split; [|split].
  - intros Hle. rewrite (percent_field_resolved _ _ _ Hres). now rewrite Hle.
  - intros Hgt. rewrite (percent_field_resolved _ _ _ Hres). now rewrite Hgt.
  - intros Hzero field'.
    assert (Hnil : Forall2 (resolves_to field') [] []) by constructor.
    rewrite (percent_field_resolved field' [] [] Hnil).
    unfold total_population. simpl. now rewrite Hzero.
Qed.

(** An unknown category is reported by [population_field] and
    [percent_field] themselves, with the message of the exception. *)
Lemma aggregate_unknown_category (field : string) data values entry rest msg :
  Forall2 (resolves_to field) data values ->
  get_field_value entry field = inl (ValueError msg) ->
  population_field (data ++ entry :: rest) field = (["Error: " +:+ msg], inr tt) /\
  percent_field (data ++ entry :: rest) field = (["Error: " +:+ msg], inr tt).
Proof.
  intros Hres He. unfold population_field, percent_field, lift, bind.
  now rewrite (sum_gen_raises _ _ _ _ _ _ Hres He).
Qed.

(** A missing key is not caught by them. *)
Lemma aggregate_missing_key (field : string) data values entry rest key :
  Forall2 (resolves_to field) data values ->
  get_field_value entry field = inl (KeyError key) ->
  population_field (data ++ entry :: rest) field = ([], inl (KeyError key)) /\
  percent_field (data ++ entry :: rest) field = ([], inl (KeyError key)).
Proof.
  intros Hres He. unfold population_field, percent_field, lift, bind.
  now rewrite (sum_gen_raises _ _ _ _ _ _ Hres He).
Qed.

End Aggregates.

(** ** The interpreter loop *)

Section Interpreter.

Context `{PyNum}.

Implicit Types (data : Dataset).

Lemma bind_assoc {A B C} (m : py A) (f : A -> py B) (g : B -> py C) :
  bind (bind m f) g = bind m (fun a => bind (f a) g).
Proof.
  destruct m as [o [e|a]]; simpl; [reflexivity|].
  destruct (f a) as [o1 [e|b]]; simpl; [reflexivity|].
  destruct (g b) as [o2 r]. now rewrite app_assoc.
Qed.

Lemma bind_ret_l {A B} (a : A) (f : A -> py B) : bind (ret a) f = f a.
Proof. unfold ret, bind. now destruct (f a). Qed.

(** The loop on a script in two pieces: the second piece starts from the
    dataset the first one leaves, at the index that follows. *)
Lemma run_app data (idx : nat) (pre post : list string) :
  run data idx (pre ++ post) =
  bind (run data idx pre) (fun data' => run data' (idx + length pre) post).
Proof.
  revert data idx. induction pre as [|raw pre IH]; intros data idx; simpl.
  - rewrite Nat.add_0_r. now destruct (run data idx post).
  - destruct (step data idx raw) as [o [e|data']]; simpl; [reflexivity|].
    rewrite IH, Nat.add_succ_r.
    destruct (run data' (S idx) pre) as [o1 [e|data1]]; simpl; [reflexivity|].
    destruct (run data1 (S (idx + length pre)) post) as [o2 r].
    now rewrite app_assoc.
Qed.

Lemma comprehension_filter (cond : CountyDemographics -> exn + bool)
    (f : CountyDemographics -> bool) data :
  Forall (fun entry => cond entry = inr (f entry)) data ->
  comprehension cond data = inr (List.filter f data).
Proof.
  induction 1 as [|entry rest Hb _ IH]; simpl; [reflexivity|].
  rewrite Hb, IH. now destruct (f entry).
Qed.

(** An exception of the classes [ValueError] and [IndexError] raised by a
    line is caught: the error line is printed and the dataset kept. *)
Lemma step_catches data (idx : nat) (raw : string) out (e : exn) :
  PyStr.strip raw <> EmptyString ->
  dispatch data (PyStr.strip raw) = (out, inl e) ->
  (e = IndexError \/ exists msg, e = ValueError msg) ->
  step data idx raw =
  (out ++ [error_line (idx + 1) (PyStr.strip raw)], inr data).
Proof.
  intros Hline Hd He. unfold step. case_decide; [contradiction|].
  rewrite Hd. destruct He as [->|[msg ->]]; reflexivity.
Qed.

(** A [KeyError] raised by a line is not caught, and ends the loop. *)
Lemma step_KeyError_escapes data (idx : nat) (raw : string) out (key : string)
    (rest : list string) :
  dispatch data (PyStr.strip raw) = (out, inl (KeyError key)) ->
  PyStr.strip raw <> EmptyString ->
  step data idx raw = (out, inl (KeyError key)) /\
  run data idx (raw :: rest) = (out, inl (KeyError key)).
Proof.
  intros Hd Hline.
  assert (Hstep : step data idx raw = (out, inl (KeyError key))).
  { unfold step. case_decide; [contradiction|]. now rewrite Hd. }
  split; [exact Hstep|]. simpl. now rewrite Hstep.
Qed.

Lemma dispatch_unrecognised data (line op : string) (args : list string) :
  PyStr.split ":" line = op :: args ->
  recognised op = false ->
  dispatch data line = ([], inl (ValueError "Unknown operation")).
Proof.
  intros Hparts Hop. unfold dispatch. rewrite Hparts.
  unfold recognised in Hop.
  repeat (apply orb_false_iff in Hop as [Hop ?]).
  repeat match goal with
         | Hb : bool_decide _ = false |- _ => apply bool_decide_eq_false in Hb
         end.
  unfold index, lift, bind. simpl.
  repeat case_decide; try contradiction.
  repeat match goal with
         | Hs : PyStr.startswith _ _ = false |- _ => rewrite Hs
         end.
  reflexivity.
Qed.

(** C6, as the code has it: a line whose opcode is not recognised prints
    exactly one error line, with the 1-based number of the line in the
    script and the text of the line without its leading and trailing
    whitespace, and the operations after it run on the dataset that the
    operations before it left. *)
Theorem unrecognised_opcode_error_line data (pre post : list string)
    (raw op : string) (args : list string) out data1 :
  run data 0 pre = (out, inr data1) ->
  PyStr.strip raw <> EmptyString ->
  PyStr.split ":" (PyStr.strip raw) = op :: args ->
  recognised op = false ->
  step data1 (length pre) raw =
    ([error_line (length pre + 1) (PyStr.strip raw)], inr data1) /\
  run data 0 (pre ++ raw :: post) =
    (out ++ error_line (length pre + 1) (PyStr.strip raw)
         :: fst (run data1 (S (length pre)) post),
     snd (run data1 (S (length pre)) post)).
Proof.
  intros Hpre Hline Hparts Hop.
  assert (Hstep : step data1 (length pre) raw =
            ([error_line (length pre + 1) (PyStr.strip raw)], inr data1)).
  { rewrite (step_catches data1 (length pre) raw [] (ValueError "Unknown operation"));
      eauto using dispatch_unrecognised. }
  split; [exact Hstep|].
  rewrite run_app, Hpre. simpl. rewrite Hstep. simpl.
  now destruct (run data1 (S (length pre)) post).
Qed.

(** C5, as the code has it: a [filter-lt] line whose threshold is a number
    and whose field resolves on every record prints the count of the
    records whose value is less than the threshold, and the operations
    after it run on those records only. *)
Theorem filter_lt_line_replaces data (idx : nat) (raw field arg : string)
    (more rest : list string) (value : num) :
  PyStr.split ":" (PyStr.strip raw) = "filter-lt" :: field :: arg :: more ->
  float_of_str arg = Some value ->
  Forall (resolves field) data ->
  let kept :=
    List.filter (fun entry =>
                   match get_field_value entry field with
                   | inr v => num_lt v value
                   | inl _ => false
                   end) data in
  let line := "Filter: " +:+ field +:+ " lt " +:+ num_str value +:+ " ("
              +:+ pretty (length kept) +:+ " entries)" in
  step data idx raw = ([line], inr kept) /\
  run data idx (raw :: rest) =
    (line :: fst (run kept (S idx) rest), snd (run kept (S idx) rest)).
Proof.
  intros Hparts Harg Hres kept line.
  assert (Hline : PyStr.strip raw <> EmptyString).
  { intros Hempty. rewrite Hempty in Hparts. discriminate. }
  assert (Hkept : comprehension (cond_lt field value) data = inr kept).
  { apply comprehension_filter. eapply Forall_impl; [exact Hres|].
    intros entry [v Hv]. unfold cond_lt. unfold resolves_to in Hv. now rewrite Hv. }
  assert (Hstep : step data idx raw = ([line], inr kept)).
  { unfold step. case_decide; [contradiction|].
    unfold dispatch. rewrite Hparts. unfold index, lift, float. simpl.
    rewrite Harg. simpl. now rewrite (filter_lt_intro _ _ _ _ Hkept). }
  split; [exact Hstep|]. simpl. rewrite Hstep. simpl.
  now destruct (run kept (S idx) rest).
Qed.

End Interpreter.

(** ** The program on the concrete runtime *)

Section Concrete.

Import Binary64 Examples.

(** On Python numbers, [a > b] excludes [a < b]. *)
Lemma gt_not_lt (a b : pynum) : gt a b = true -> lt a b = false.
Proof. unfold gt, lt. destruct (compare a b) as [[]|]; congruence. Qed.

(** *** The format [.15f] on the concrete runtime *)

Lemma contains_app (c : ascii) (a b : string) :
  PyStr.contains c (a +:+ b) = PyStr.contains c a || PyStr.contains c b.
Proof.
  induction a as [|x a IH]; simpl; [reflexivity|].
  now rewrite IH, orb_assoc.
Qed.

Lemma string_length_app (a b : string) :
  String.length (a +:+ b) = String.length a + String.length b.
Proof. induction a as [|x a IH]; simpl; [reflexivity|]. now rewrite IH. Qed.

Lemma contains_zeros (n : nat) : PyStr.contains "." (zeros n) = false.
Proof. induction n as [|n IH]; simpl; [reflexivity|exact IH]. Qed.

Lemma length_zeros (n : nat) : String.length (zeros n) = n.
Proof. induction n as [|n IH]; simpl; [reflexivity|]. now rewrite IH. Qed.

Lemma pretty_N_char_not_dot (d : N) : Ascii.eqb (pretty_N_char d) "." = false.
Proof. unfold pretty_N_char. repeat case_match; reflexivity. Qed.

Lemma pretty_N_go_no_dot (x : N) (s : string) :
  PyStr.contains "." s = false -> PyStr.contains "." (pretty_N_go x s) = false.
Proof.
  revert s. induction (N.lt_wf_0 x) as [x _ IH]. intros s Hs.
  destruct (decide (0 < x)%N) as [Hx|Hx].
  - rewrite pretty_N_go_step by exact Hx.
    apply IH; [apply N.div_lt; lia|].
    simpl. now rewrite pretty_N_char_not_dot, Hs.
  - assert (x = 0%N) as -> by lia. now rewrite pretty_N_go_0.
Qed.

Lemma pretty_N_go_length (k : nat) (x : N) (s : string) :
  (x < 10 ^ N.of_nat k)%N ->
  (String.length (pretty_N_go x s) <= String.length s + k)%nat.
Proof.
  revert x s. induction k as [|k IH]; intros x s Hx.
  - assert (x = 0%N) as -> by (simpl in Hx; lia). rewrite pretty_N_go_0. lia.
  - destruct (decide (0 < x)%N) as [Hpos|Hpos].
    + rewrite pretty_N_go_step by exact Hpos.
      etransitivity; [apply IH|simpl; lia].
      apply N.Div0.div_lt_upper_bound.
      rewrite Nat2N.inj_succ, N.pow_succ_r' in Hx. exact Hx.
    + assert (x = 0%N) as -> by lia. rewrite pretty_N_go_0. lia.
Qed.

Lemma pretty_Z_no_dot (z : Z) : PyStr.contains "." (pretty z) = false.
Proof.
  assert (HN : forall x : N, PyStr.contains "." (pretty x) = false).
  { intros x. unfold pretty, pretty_N. case_decide; [reflexivity|].
    now apply pretty_N_go_no_dot. }
  destruct z as [|p|p]; [reflexivity|apply HN|].
  change (pretty (Z.neg p)) with ("-" +:+ pretty (N.pos p)).
  now rewrite contains_app, HN.
Qed.

Lemma pretty_Z_length (k : nat) (z : Z) :
  (0 <= z < 10 ^ Z.of_nat k)%Z -> (0 < k)%nat ->
  (String.length (pretty z) <= k)%nat.
Proof.
  intros [Hlo Hhi] Hk. destruct z as [|p|p]; [simpl; lia| |lia].
  change (pretty (Z.pos p)) with (pretty (N.pos p)).
  unfold pretty, pretty_N. case_decide; [discriminate|].
  apply (pretty_N_go_length k (N.pos p) EmptyString).
  assert (Hpow : Z.of_N (10 ^ N.of_nat k) = (10 ^ Z.of_nat k)%Z).
  { rewrite N2Z.inj_pow, nat_N_Z. reflexivity. }
  lia.
Qed.

(** On a float that is neither an infinity nor a NaN, [.15f] gives an
    integer part, a point and 15 fraction characters, with no other
    point. *)
Lemma format_15f_numeral (f : spec_float) :
  match f with S754_zero _ | S754_finite _ _ _ => True | _ => False end ->
  exists int_part fraction,
    format_15f f = int_part +:+ "." +:+ fraction /\
    PyStr.contains "." int_part = false /\
    PyStr.contains "." fraction = false /\
    String.length fraction = 15.
Proof.
  destruct f as [s|s| |s m e]; try contradiction; intros _.
  - exists (sign_str s +:+ "0"), "000000000000000".
    destruct s; repeat split; reflexivity.
  - unfold format_15f. destruct (ratio_of m e) as [p q].
    set (n := round_half_even (p * 10 ^ 15) q).
    exists (sign_str s +:+ pretty (n / 10 ^ 15)%Z),
           (zfill 15 (pretty (n mod 10 ^ 15)%Z)).
    assert (Hlen : (String.length (pretty (n mod 10 ^ 15)%Z) <= 15)%nat).
    { apply pretty_Z_length; [|lia].
      change (10 ^ Z.of_nat 15)%Z with (10 ^ 15)%Z.
      apply Z.mod_pos_bound. lia. }
    split; [|split; [|split]].
    + destruct s; simpl; reflexivity.
    + rewrite contains_app, pretty_Z_no_dot. now destruct s.
    + unfold zfill. now rewrite contains_app, contains_zeros, pretty_Z_no_dot.
    + unfold zfill. rewrite string_length_app, length_zeros. lia.
Qed.

(** On the concrete runtime, a finite sub-population is printed as its
    numeral with 15 fractional digits, trimmed. *)
Lemma population_field_trimmed (field : string) (data : Dataset)
    (values : list pynum) :
  Forall2 (resolves_to field) data values ->
  match to_float (sub_population data values) with
  | S754_zero _ | S754_finite _ _ _ => True
  | _ => False
  end ->
  exists int_part fraction,
    num_format_15f (sub_population data values) = int_part +:+ "." +:+ fraction /\
    String.length fraction = 15 /\
    population_field data field =
      (["2014 " +:+ field +:+ " population: " +:+ trim_fraction int_part fraction],
       inr tt).
Proof.
  intros Hres Hfin.
  destruct (format_15f_numeral _ Hfin) as (ip & frac & Hfmt & Hip & Hfrac & Hlen).
  exists ip, frac. split; [exact Hfmt|]. split; [exact Hlen|].
  rewrite (population_field_resolved _ _ _ Hres).
  change (num_format_15f (sub_population data values))
    with (format_15f (to_float (sub_population data values))).
  now rewrite Hfmt, rstrip_numeral.
Qed.

(** C1: a key missing from the mapping of a filter field raises
    [KeyError], which the handler of [execute_operations] for
    [ValueError] and [IndexError] does not catch: the exception leaves
    [main], no error line is printed and the next line is not run. *)
Theorem missing_key_in_filter_escapes :
  main (fun _ => Some ["filter-gt:" +:+ bachelors +:+ ":20" +:+ LF;
                       "population-total" +:+ LF])
       [bare] ["hw4.py"; "ops.txt"]
  = (["1 records loaded"], inl (KeyError "Bachelor's Degree or Higher")).
Proof. reflexivity. Qed.

(** C2: a key missing from the mapping of the field of a
    [population-<field>] or [percent-<field>] operation raises [KeyError],
    which neither the handler of the operation (for [ValueError]) nor the
    one of [execute_operations] catches: no [Error: <message>] line is
    printed and the next line is not run. *)
Theorem missing_key_in_aggregate_escapes :
  main (fun _ => Some ["population:" +:+ bachelors +:+ LF;
                       "population-total" +:+ LF])
       [bare] ["hw4.py"; "ops.txt"]
  = (["1 records loaded"], inl (KeyError "Bachelor's Degree or Higher")) /\
  main (fun _ => Some ["percent:" +:+ bachelors +:+ LF;
                       "population-total" +:+ LF])
       [bare] ["hw4.py"; "ops.txt"]
  = (["1 records loaded"], inl (KeyError "Bachelor's Degree or Higher")).
Proof. split; reflexivity. Qed.

(** An unknown category in the same operations is reported and the script
    goes on. *)
Example unknown_category_in_aggregate_reported :
  main (fun _ => Some ["population:Schooling.Any" +:+ LF;
                       "population-total" +:+ LF])
       [bare] ["hw4.py"; "ops.txt"]
  = (["1 records loaded";
      "Error: Field 'Schooling.Any' not found in entry.";
      "2014 population: 100"], inr tt).
Proof. reflexivity. Qed.

(** C5 fails as stated: after a [filter-lt] line the current dataset is
    the filtered one, here one record of the two, and the total printed by
    the next line is the total of that record. *)
Lemma filter_lt_line_changes_dataset :
  step [slo; yolo] 0 ("filter-lt:" +:+ bachelors +:+ ":35" +:+ LF)
  = (["Filter: Education.Bachelor's Degree or Higher lt 35.0 (1 entries)"],
     inr [slo]) /\
  [slo] <> [slo; yolo] /\
  run [slo; yolo] 0 ["filter-lt:" +:+ bachelors +:+ ":35" +:+ LF;
                     "population-total" +:+ LF]
  = (["Filter: Education.Bachelor's Degree or Higher lt 35.0 (1 entries)";
      "2014 population: 279083"], inr [slo]) /\
  population_total [slo; yolo] = (["2014 population: 486673"], inr tt).
Proof.
  split; [reflexivity|].
  split; [intros Heq; apply (f_equal length) in Heq; discriminate|].
  split; reflexivity.
Qed.

Lemma filter_lt_line_replaces_witness :
  step [slo; yolo] 0 ("filter-lt:" +:+ bachelors +:+ ":35" +:+ LF)
  = (["Filter: Education.Bachelor's Degree or Higher lt 35.0 (1 entries)"],
     inr [slo]).
Proof.
  pose proof (filter_lt_line_replaces [slo; yolo] 0
                ("filter-lt:" +:+ bachelors +:+ ":35" +:+ LF)
                bachelors "35" [] [] (number "35")) as Hthm.
  destruct Hthm as [Hstep _].
  - reflexivity.
  - reflexivity.
  - repeat constructor; eexists; reflexivity.
  - rewrite Hstep. reflexivity.
Defined.

(** C6 fails as stated: the error line carries the text of the line
    without its leading and trailing whitespace. *)
Lemma error_line_text_is_stripped :
  step [slo] 0 ("  bogus:1 " +:+ LF)
  = (["Error: Malformed line 1: bogus:1"], inr [slo]) /\
  "Error: Malformed line 1: bogus:1"
  <> "Error: Malformed line 1: " +:+ ("  bogus:1 " +:+ LF) /\
  "Error: Malformed line 1: bogus:1"
  <> "Error: Malformed line 1: " +:+ "  bogus:1 ".
Proof.
  split; [reflexivity|].
  split; vm_compute; discriminate.
Qed.

Lemma unrecognised_opcode_error_line_witness :
  run [slo; yolo] 0 (["filter-state:CA" +:+ LF; LF]
                     ++ ("  bogus:1 " +:+ LF) :: ["population-total" +:+ LF])
  = (["Filter: state == CA (2 entries)";
      "Error: Malformed line 3: bogus:1";
      "2014 population: 486673"], inr [slo; yolo]).
Proof.
  pose proof (unrecognised_opcode_error_line [slo; yolo]
                ["filter-state:CA" +:+ LF; LF] ["population-total" +:+ LF]
                ("  bogus:1 " +:+ LF) "bogus" ["1"]
                ["Filter: state == CA (2 entries)"] [slo; yolo]) as Hthm.
  destruct Hthm as [_ Hrun].
  - reflexivity.
  - vm_compute. discriminate.
  - reflexivity.
  - reflexivity.
  - rewrite Hrun. reflexivity.
Defined.

Lemma filter_gt_then_lt_empty_witness :
  exists out1 kept out2,
    filter_gt [slo; yolo] bachelors (number "35") = (out1, inr kept) /\
    filter_lt kept bachelors (number "35") = (out2, inr []).
Proof.
  apply (filter_gt_then_lt_empty (H := runtime)).
  - exact gt_not_lt.
  - repeat constructor; eexists; reflexivity.
Defined.

Lemma filter_sound_witness :
  length [yolo] <= length [slo; yolo] /\
  Forall (satisfies (FilterGt (H := runtime) bachelors (number "35"))) [yolo] /\
  run_filter (FilterGt (H := runtime) bachelors (number "35")) [yolo]
  = (["Filter: Education.Bachelor's Degree or Higher gt 35.0 (1 entries)"],
     inr [yolo]).
Proof.
  apply (filter_sound (FilterGt (H := runtime) bachelors (number "35")) [slo; yolo]).
  reflexivity.
Defined.

Lemma filter_subsequence_witness : sublist [slo] [slo; yolo].
Proof.
  apply (filter_subsequence (FilterLt (H := runtime) bachelors (number "35"))
           [slo; yolo]
           ["Filter: Education.Bachelor's Degree or Higher lt 35.0 (1 entries)"]).
  reflexivity.
Defined.

Lemma population_field_prints_witness :
  population_field [slo; yolo] bachelors
  = (["2014 Education.Bachelor's Degree or Higher population: 166587.755000000004657"],
     inr tt) /\
  population_field [slo; yolo] bachelors
  = (["2014 Education.Bachelor's Degree or Higher population: "
      +:+ trim_fraction "166587" "755000000004657"], inr tt) /\
  percent_field [slo; yolo] bachelors
  = (["2014 Education.Bachelor's Degree or Higher percentage: 34.22991515863835"],
     inr tt).
Proof.
  pose proof (population_field_prints bachelors [slo; yolo]
                [number "31.5"; number "37.9"]) as Hthm.
  destruct Hthm as (Hpop & Htrim & Hpct).
  - repeat constructor; reflexivity.
  - split; [|split].
    + rewrite Hpop. reflexivity.
    + apply Htrim; reflexivity.
    + rewrite Hpct. reflexivity.
Defined.

(** A sub-population that is a whole number is printed without a point,
    and the zeros of its integer part stay. *)
Example population_field_whole_number :
  num_format_15f (sub_population [empty_county; bare] [PyInt 0; PyInt 100])
  = "100.000000000000000" /\
  population_field [empty_county; bare] "Population.2014 Population"
  = (["2014 Population.2014 Population population: 100"], inr tt).
Proof. split; reflexivity. Qed.

(** C9 fails as stated: on a dataset whose total population is 0, a field
    of an unknown category prints the error of the resolution, not
    [0.000000]. *)
Lemma percent_field_zero_total_unresolved :
  total_population [empty_county] = PyInt 0 /\
  percent_field [empty_county] "Schooling.Any"
  = (["Error: Field 'Schooling.Any' not found in entry."], inr tt) /\
  step [empty_county] 0 ("percent:Schooling.Any" +:+ LF)
  = (["Error: Field 'Schooling.Any' not found in entry."], inr [empty_county]).
Proof. repeat split; reflexivity. Qed.

Lemma percent_field_prints_witness :
  percent_field [empty_county] bachelors
  = (["2014 Education.Bachelor's Degree or Higher percentage: 0.000000"], inr tt).
Proof.
  pose proof (percent_field_prints bachelors [empty_county] [number "10.0"]) as Hthm.
  destruct Hthm as (Hzero & _ & _).
  - repeat constructor; reflexivity.
  - rewrite Hzero; reflexivity.
Defined.

End Concrete.

(** * Further properties of the interpreter *)

(** ** Exceptions and outcomes of one line *)

Section LineOutcomes.

Context `{PyNum}.

Implicit Types (data : Dataset).

(** Field resolution raises [ValueError] or [KeyError], nothing else. *)
Lemma get_field_value_error (entry : CountyDemographics) (field : string) (e : exn) :
  get_field_value entry field = inl e ->
  (exists msg, e = ValueError msg) \/ (exists key, e = KeyError key).
Proof.
  unfold get_field_value.
  pose proof (split_not_nil "." field) as Hne.
  destruct (PyStr.split "." field) as [|prefix rest]; [congruence|].
  unfold getitem.
  repeat case_decide;
    repeat match goal with
           | |- context [ ?m !! ?k ] => destruct (m !! k)
           end;
    intros Heq; inversion Heq; eauto.
Qed.

Lemma comprehension_error (cond : CountyDemographics -> exn + bool) data (e : exn) :
  comprehension cond data = inl e ->
  exists entry, entry ∈ data /\ cond entry = inl e.
Proof.
  induction data as [|x rest IH]; simpl; [discriminate|].
  destruct (cond x) as [e'|b] eqn:Hx.
  - intros Heq. inversion Heq; subst. exists x. split; [constructor|exact Hx].
  - destruct (comprehension cond rest) as [e'|l]; [|discriminate].
    intros Heq. inversion Heq; subst.
    destruct (IH eq_refl) as (entry & Hin & He).
    exists entry. split; [now constructor|exact He].
Qed.

Lemma generate_error (term : CountyDemographics -> exn + num) data (e : exn) :
  generate term data = inl e ->
  exists entry, entry ∈ data /\ term entry = inl e.
Proof.
  induction data as [|x rest IH]; simpl; [discriminate|].
  destruct (term x) as [e'|b] eqn:Hx.
  - intros Heq. inversion Heq; subst. exists x. split; [constructor|exact Hx].
  - destruct (generate term rest) as [e'|l]; [|discriminate].
    intros Heq. inversion Heq; subst.
    destruct (IH eq_refl) as (entry & Hin & He).
    exists entry. split; [now constructor|exact He].
Qed.

Lemma cond_gt_error (field : string) (value : num) entry (e : exn) :
  cond_gt field value entry = inl e -> get_field_value entry field = inl e.
Proof.
  unfold cond_gt. destruct (get_field_value entry field); congruence.
Qed.

Lemma cond_lt_error (field : string) (value : num) entry (e : exn) :
  cond_lt field value entry = inl e -> get_field_value entry field = inl e.
Proof.
  unfold cond_lt. destruct (get_field_value entry field); congruence.
Qed.

Lemma sub_population_term_error (field : string) entry (e : exn) :
  sub_population_term field entry = inl e -> get_field_value entry field = inl e.
Proof.
  unfold sub_population_term. destruct (get_field_value entry field); congruence.
Qed.

Lemma filter_gt_outcome data (field : string) (value : num) :
  line_outcome data (filter_gt data field value).
Proof.
  unfold filter_gt, lift, bind.
  destruct (comprehension (cond_gt field value) data) as [e|l] eqn:Hc; simpl.
  - split; [reflexivity|].
    destruct (comprehension_error _ _ _ Hc) as (entry & _ & He).
    apply cond_gt_error, get_field_value_error in He as [[msg ->]|[key ->]];
      unfold caught; eauto.
  - eapply comprehension_sublist, Hc.
Qed.

Lemma filter_lt_outcome data (field : string) (value : num) :
  line_outcome data (filter_lt data field value).
Proof.
  unfold filter_lt, lift, bind.
  destruct (comprehension (cond_lt field value) data) as [e|l] eqn:Hc; simpl.
  - split; [reflexivity|].
    destruct (comprehension_error _ _ _ Hc) as (entry & _ & He).
    apply cond_lt_error, get_field_value_error in He as [[msg ->]|[key ->]];
      unfold caught; eauto.
  - eapply comprehension_sublist, Hc.
Qed.

(** [display] prints and returns, whatever the records hold. *)
Lemma display_returns data : snd (display data) = inr tt.
Proof.
  induction data as [|entry rest IH]; [reflexivity|].
  simpl. destruct (display rest) as [o r]. simpl in *. now subst.
Qed.

Lemma generate_resolves (field : string) data (xs : list num) :
  generate (sub_population_term field) data = inr xs ->
  exists values, Forall2 (resolves_to field) data values.
Proof.
  revert xs. induction data as [|x rest IH]; intros xs; simpl.
  - intros _. exists []. constructor.
  - unfold sub_population_term at 1.
    destruct (get_field_value x field) as [e|v] eqn:Hv; [discriminate|].
    destruct (generate (sub_population_term field) rest) as [e|l]; [discriminate|].
    intros _. destruct (IH l eq_refl) as [values Hvalues].
    exists (v :: values). now constructor.
Qed.

(** The sum of an aggregate either is computed or raises what the
    resolution of the field raised on some record. *)
Lemma sum_gen_cases (field : string) data :
  (exists values, Forall2 (resolves_to field) data values) \/
  (exists e entry, sum_gen (sub_population_term field) data = inl e /\
                   entry ∈ data /\ get_field_value entry field = inl e).
Proof.
  unfold sum_gen.
  destruct (generate (sub_population_term field) data) as [e|xs] eqn:Hg.
  - right. destruct (generate_error _ _ _ Hg) as (entry & Hin & He).
    exists e, entry. split; [reflexivity|]. split; [exact Hin|].
    now apply sub_population_term_error.
  - left. eapply generate_resolves, Hg.
Qed.

(** The three outcomes of the aggregates, the same for both: a value line,
    an [Error:] line for a [ValueError], or an uncaught [KeyError]. *)
Lemma aggregate_cases (field : string) data :
  (exists values, Forall2 (resolves_to field) data values) \/
  (exists msg,
     population_field data field = (["Error: " +:+ msg], inr tt) /\
     percent_field data field = (["Error: " +:+ msg], inr tt)) \/
  (exists key,
     population_field data field = ([], inl (KeyError key)) /\
     percent_field data field = ([], inl (KeyError key))).
Proof.
  destruct (sum_gen_cases field data) as [Hok|(e & entry & Hsum & _ & He)];
    [now left|right].
  unfold population_field, percent_field, lift, bind. rewrite Hsum.
  apply get_field_value_error in He as [[msg ->]|[key ->]]; simpl; eauto.
Qed.

Lemma population_field_outcome data (field : string) :
  (exists line, population_field data field = ([line], inr tt)) \/
  (exists key, population_field data field = ([], inl (KeyError key))).
Proof.
  destruct (aggregate_cases field data) as [[values Hv]|[(msg & Hp & _)|(key & Hp & _)]];
    eauto.
  left. eexists. apply (population_field_resolved _ _ _ Hv).
Qed.

Lemma percent_field_outcome data (field : string) :
  (exists line, percent_field data field = ([line], inr tt)) \/
  (exists key, percent_field data field = ([], inl (KeyError key))).
Proof.
  destruct (aggregate_cases field data) as [[values Hv]|[(msg & _ & Hp)|(key & _ & Hp)]];
    eauto.
  left. eexists. apply (percent_field_resolved _ _ _ Hv).
Qed.

Lemma split_cons (sep : ascii) (s : string) :
  exists first rest, PyStr.split sep s = first :: rest.
Proof.
  pose proof (split_not_nil sep s). destruct (PyStr.split sep s); [congruence|eauto].
Qed.

(** What [dispatch] does once the line is split, opcode by opcode. *)
Lemma dispatch_parts data (line op : string) (args : list string) :
  PyStr.split ":" line = op :: args ->
  dispatch data line =
  if decide (op = "display") then
    display data ;;; ret data
  else if decide (op = "filter-state") then
    st <- lift (index (op :: args) 1) ;;
    filter_state data st
  else if decide (op = "filter-gt") then
    field <- lift (index (op :: args) 1) ;;
    arg <- lift (index (op :: args) 2) ;;
    value <- lift (float arg) ;;
    filter_gt data field value
  else if decide (op = "filter-lt") then
    field <- lift (index (op :: args) 1) ;;
    arg <- lift (index (op :: args) 2) ;;
    value <- lift (float arg) ;;
    filter_lt data field value
  else if decide (op = "population-total") then
    population_total data ;;; ret data
  else if PyStr.startswith op "population" then
    field <- lift (index (op :: args) 1) ;;
    population_field data field ;;; ret data
  else if PyStr.startswith op "percent" then
    field <- lift (index (op :: args) 1) ;;
    percent_field data field ;;; ret data
  else raise (ValueError "Unknown operation").
Proof.
  intros Hparts. unfold dispatch. rewrite Hparts.
  change (lift (index (op :: args) 0)) with (@ret string op).
  now rewrite bind_ret_l.
Qed.

(** Every line either returns a subsequence of the dataset or raises
    before it has printed anything. *)
Lemma dispatch_outcome data (line : string) :
  line_outcome data (dispatch data line).
Proof.
  destruct (split_cons ":" line) as (op & args & Hparts).
  rewrite (dispatch_parts _ _ _ _ Hparts).
  assert (Hcaught_index : caught IndexError) by (left; reflexivity).
  assert (Hcaught_value : forall msg, caught (ValueError msg))
    by (intros msg; right; eauto).
  destruct args as [|a1 [|a2 args]]; unfold index, lift, float; simpl;
    repeat case_decide;
    repeat match goal with
           | |- context [ PyStr.startswith ?a ?b ] => destruct (PyStr.startswith a b)
           end;
    simpl;
    try (pose proof (display_returns data) as Hd;
         destruct (display data) as [o r]; simpl in *; subst; simpl; reflexivity);
    try (split; [reflexivity|]; left; auto; fail);
    try reflexivity.
  all: try (destruct (float_of_str a2); simpl;
            [|split; [reflexivity|left; auto]]).
  all: try match goal with
           | |- context [ filter_gt ?d ?f ?v ] =>
               pose proof (filter_gt_outcome d f v) as Ho;
               destruct (filter_gt d f v) as [o [e|d']]; simpl in *; exact Ho
           | |- context [ filter_lt ?d ?f ?v ] =>
               pose proof (filter_lt_outcome d f v) as Ho;
               destruct (filter_lt d f v) as [o [e|d']]; simpl in *; exact Ho
           | |- context [ population_field ?d ?f ] =>
               destruct (population_field_outcome d f) as [[l ->]|[k ->]];
               simpl; [reflexivity|split; [reflexivity|right; eauto]]
           | |- context [ percent_field ?d ?f ] =>
               destruct (percent_field_outcome d f) as [[l ->]|[k ->]];
               simpl; [reflexivity|split; [reflexivity|right; eauto]]
           | |- context [ List.filter ?f ?l ] => apply list_filter_sublist
           end.
Qed.

Lemma step_outcome data (idx : nat) (raw : string) :
  match step data idx raw with
  | (_, inr data') => sublist data' data
  | (out, inl e) => out = [] /\ exists key, e = KeyError key
  end.
Proof.
  unfold step. case_decide; [simpl; reflexivity|].
  pose proof (dispatch_outcome data (PyStr.strip raw)) as Ho.
  destruct (dispatch data (PyStr.strip raw)) as [o [e|data']]; simpl in *;
    [|exact Ho].
  destruct Ho as [-> [[->|[msg ->]]|[key ->]]]; simpl; eauto.
Qed.

(** X1: lines that are blank once stripped are skipped: a script made of
    such lines prints nothing and leaves the dataset as it is. *)
Theorem blank_lines_skipped data (idx : nat) (lines : list string) :
  Forall (fun raw => PyStr.strip raw = EmptyString) lines ->
  run data idx lines = ([], inr data).
Proof.
  intros Hblank. revert idx.
  induction Hblank as [|raw rest Hraw _ IH]; intros idx; simpl; [reflexivity|].
  unfold step. rewrite Hraw. case_decide; [|contradiction].
  simpl. now rewrite IH.
Qed.


(** X3: the dataset a script ends with is a subsequence of the one it
    starts with: operations only ever drop records, never add, repeat or
    reorder them. *)
Theorem dataset_only_shrinks data (idx : nat) (lines : list string) out data' :
  run data idx lines = (out, inr data') ->
  sublist data' data.
Proof.
  revert data idx out. induction lines as [|raw rest IH]; intros data idx out; simpl.
  - intros Heq. inversion Heq. reflexivity.
  - pose proof (step_outcome data idx raw) as Hstep.
    destruct (step data idx raw) as [o [e|data1]]; simpl; [discriminate|].
    destruct (run data1 (S idx) rest) as [o2 r2] eqn:Hr.
    intros Heq. inversion Heq; subst.
    etransitivity; [eapply IH, Hr|exact Hstep].
Qed.

(** X4: only the three filter operations change the dataset: whatever
    else a line holds ([display], the aggregates, a blank or a malformed
    line), the line that follows it sees the same dataset. *)
Theorem non_filter_line_keeps_dataset data (idx : nat) (raw op : string)
    (args : list string) out data' :
  PyStr.split ":" (PyStr.strip raw) = op :: args ->
  op ∉ filter_opcodes ->
  step data idx raw = (out, inr data') ->
  data' = data.
Proof.
  intros Hparts Hop. unfold filter_opcodes in Hop.
  rewrite !not_elem_of_cons in Hop. destruct Hop as (Hs & Hg & Hl & _).
  unfold step. case_decide; [intros Heq; now inversion Heq|].
  rewrite (dispatch_parts _ _ _ _ Hparts).
  repeat case_decide; try contradiction.
  - pose proof (display_returns data) as Hd.
    destruct (display data) as [o r]; simpl in *; subst; simpl.
    intros Heq. now inversion Heq.
  - simpl. intros Heq. now inversion Heq.
  - destruct (PyStr.startswith op "population");
      [|destruct (PyStr.startswith op "percent")].
    + destruct args as [|field args]; unfold index, lift; simpl;
        [intros Heq; now inversion Heq|].
      destruct (population_field_outcome data field) as [[l ->]|[k ->]]; simpl;
        intros Heq; now inversion Heq.
    + destruct args as [|field args]; unfold index, lift; simpl;
        [intros Heq; now inversion Heq|].
      destruct (percent_field_outcome data field) as [[l ->]|[k ->]]; simpl;
        intros Heq; now inversion Heq.
    + simpl. intros Heq. now inversion Heq.
Qed.

End LineOutcomes.

(** ** Filters as selections *)

Section Selections.

Context `{PyNum}.

Implicit Types (data filtered : Dataset) (op : filter_op).

Lemma keeps_satisfies op (entry : CountyDemographics) :
  keeps op entry = true <-> satisfies op entry.
Proof.
  destruct op as [st|field value|field value]; simpl.
  - apply bool_decide_eq_true.
  - unfold resolves_to. destruct (get_field_value entry field) as [e|v]; split.
    + discriminate.
    + intros (w & Hw & _). discriminate.
    + intros Hb. eauto.
    + intros (w & Hw & Hb). congruence.
  - unfold resolves_to. destruct (get_field_value entry field) as [e|v]; split.
    + discriminate.
    + intros (w & Hw & _). discriminate.
    + intros Hb. eauto.
    + intros (w & Hw & Hb). congruence.
Qed.

Lemma comprehension_inv (cond : CountyDemographics -> exn + bool) data filtered :
  comprehension cond data = inr filtered ->
  Forall (fun entry => exists b, cond entry = inr b) data.
Proof.
  revert filtered. induction data as [|x rest IH]; intros filtered; simpl.
  - constructor.
  - destruct (cond x) as [e|b] eqn:Hx; [discriminate|].
    destruct (comprehension cond rest) as [e|l]; [discriminate|].
    intros _. constructor; [eauto|]. eapply IH. reflexivity.
Qed.

(** A filter succeeds exactly when its test can be evaluated on every
    record, and then selects the records that pass it. *)
Lemma run_filter_intro op data :
  Forall (testable op) data ->
  run_filter op data =
  ([filter_line op (length (List.filter (keeps op) data))],
   inr (List.filter (keeps op) data)).
Proof.
  destruct op as [st|field value|field value]; simpl; intros Htest.
  - reflexivity.
  - apply filter_gt_intro, comprehension_filter.
    eapply Forall_impl; [exact Htest|]. intros entry [v Hv].
    unfold cond_gt, keeps. unfold resolves_to in Hv. now rewrite Hv.
  - apply filter_lt_intro, comprehension_filter.
    eapply Forall_impl; [exact Htest|]. intros entry [v Hv].
    unfold cond_lt, keeps. unfold resolves_to in Hv. now rewrite Hv.
Qed.

Lemma run_filter_testable op data out filtered :
  run_filter op data = (out, inr filtered) -> Forall (testable op) data.
Proof.
  destruct op as [st|field value|field value]; simpl; intros Hrun.
  - apply Forall_true. intros entry. exact I.
  - apply filter_gt_inv in Hrun as [Hc _].
    eapply Forall_impl; [eapply comprehension_inv, Hc|].
    intros entry [b Hb]. unfold cond_gt in Hb.
    destruct (get_field_value entry field) as [e|v] eqn:Hv; [discriminate|].
    exists v. exact Hv.
  - apply filter_lt_inv in Hrun as [Hc _].
    eapply Forall_impl; [eapply comprehension_inv, Hc|].
    intros entry [b Hb]. unfold cond_lt in Hb.
    destruct (get_field_value entry field) as [e|v] eqn:Hv; [discriminate|].
    exists v. exact Hv.
Qed.

Lemma run_filter_inv op data out filtered :
  run_filter op data = (out, inr filtered) ->
  filtered = List.filter (keeps op) data /\
  out = [filter_line op (length filtered)].
Proof.
  intros Hrun. pose proof (run_filter_testable _ _ _ _ Hrun) as Htest.
  rewrite (run_filter_intro _ _ Htest) in Hrun. inversion Hrun; subst. auto.
Qed.

Lemma Forall_list_filter {A} (P : A -> Prop) (f : A -> bool) (l : list A) :
  Forall P l -> Forall P (List.filter f l).
Proof.
  induction 1 as [|a l Ha _ IH]; simpl; [constructor|].
  destruct (f a); [constructor|]; assumption.
Qed.

Lemma list_filter_comm {A} (f g : A -> bool) (l : list A) :
  List.filter f (List.filter g l) = List.filter g (List.filter f l).
Proof.
  induction l as [|a l IH]; simpl; [reflexivity|].
  destruct (f a) eqn:Hf, (g a) eqn:Hg; simpl; rewrite ?Hf, ?Hg, IH; reflexivity.
Qed.

(** X5: a filter that succeeds returns exactly the records of its input
    that satisfy its predicate, none of them dropped, in the order of the
    input, and prints one line, which carries the number of records it
    returns. *)
Theorem filter_keeps_exactly op data out filtered :
  run_filter op data = (out, inr filtered) ->
  filtered = List.filter (keeps op) data /\
  (forall entry, entry ∈ filtered <-> entry ∈ data /\ satisfies op entry) /\
  out = [filter_line op (length filtered)].
Proof.
  intros Hrun. destruct (run_filter_inv _ _ _ _ Hrun) as [Hf Hout].
  split; [exact Hf|]. split; [|exact Hout].
  intros entry. rewrite Hf, !list_elem_of_In, filter_In, keeps_satisfies.
  reflexivity.
Qed.

(** X6: two filters that each succeed on a dataset can be applied one
    after the other in either order: both orders succeed and leave the
    same records. *)
Theorem filters_commute (a b : filter_op) data out1 out2 data1 data2 :
  run_filter a data = (out1, inr data1) ->
  run_filter b data = (out2, inr data2) ->
  exists both,
    run_filter b data1 = ([filter_line b (length both)], inr both) /\
    run_filter a data2 = ([filter_line a (length both)], inr both).
Proof.
  intros Ha Hb.
  pose proof (run_filter_testable _ _ _ _ Ha) as Hta.
  pose proof (run_filter_testable _ _ _ _ Hb) as Htb.
  apply run_filter_inv in Ha as [-> _]. apply run_filter_inv in Hb as [-> _].
  exists (List.filter (keeps b) (List.filter (keeps a) data)). split.
  - apply run_filter_intro, Forall_list_filter, Htb.
  - rewrite (list_filter_comm (keeps b) (keeps a)).
    apply run_filter_intro, Forall_list_filter, Hta.
Qed.

(** X7: a filter succeeds if and only if the field it tests resolves on
    every record of its input ([filter_state] always does); one record
    with an unknown category or a missing key makes it raise, even if the
    record would not be kept. *)
Theorem filter_succeeds_iff op data :
  (exists out filtered, run_filter op data = (out, inr filtered))
  <-> Forall (testable op) data.
Proof.
  split.
  - intros (out & filtered & Hrun). eapply run_filter_testable, Hrun.
  - intros Htest. eexists _, _. apply run_filter_intro, Htest.
Qed.

End Selections.

(** ** The lines of a script, opcode by opcode *)

Section Lines.

Context `{PyNum}.

Implicit Types (data : Dataset).

Lemma split_nonblank (line first second : string) (rest : list string) :
  PyStr.split ":" line = first :: second :: rest -> line <> EmptyString.
Proof. intros Hparts ->. discriminate. Qed.

(** A line that is not blank runs in the [try] block of the loop. *)
Lemma step_nonblank data (idx : nat) (raw : string) :
  PyStr.strip raw <> EmptyString ->
  step data idx raw =
  try_except (dispatch data (PyStr.strip raw))
             (malformed_line data idx (PyStr.strip raw)).
Proof. intros Hline. unfold step. now case_decide. Qed.

Lemma bind_lift_inr {A B} (a : A) (f : A -> py B) : bind (lift (inr a)) f = f a.
Proof. apply (bind_ret_l a f). Qed.

Lemma bind_lift_inl {A B} (e : exn) (f : A -> py B) :
  bind (lift (inl e)) f = ([], inl e).
Proof. reflexivity. Qed.

Lemma unknown_category_raises (entry : CountyDemographics) (field : string) :
  fst (PyStr.cut_first "." field) ∉ categories ->
  get_field_value entry field =
  inl (ValueError ("Field '" +:+ field +:+ "' not found in entry.")).
Proof.
  rewrite get_field_value_resolve. unfold resolve, categories.
  destruct (PyStr.cut_first "." field) as [category key_name]. simpl.
  rewrite !not_elem_of_cons. intros (? & ? & ? & ? & _).
  repeat case_decide; try contradiction. reflexivity.
Qed.

(** A [filter-gt] or [filter-lt] line with its two arguments parses the
    threshold and runs the filter. *)
Lemma comparison_line_dispatch data (line op field arg : string)
    (more : list string) mk :
  PyStr.split ":" line = op :: field :: arg :: more ->
  comparison_filter op = Some mk ->
  dispatch data line =
  (value <- lift (float arg) ;; run_filter (mk field value) data).
Proof.
  intros Hparts Hop. rewrite (dispatch_parts _ _ _ _ Hparts).
  unfold comparison_filter in Hop.
  repeat case_decide; subst; try discriminate; inversion Hop; subst;
    unfold index, lift, bind; simpl;
    destruct (float arg) as [e|value]; simpl; try reflexivity.
  - now destruct (filter_gt data field value).
  - now destruct (filter_lt data field value).
Qed.

(** X8: a [filter-state] line with an argument never fails: it keeps the
    records of that state (none for a code no record has), prints their
    count and makes them the current dataset; further arguments are
    ignored. *)
Theorem filter_state_line_replaces data (idx : nat) (raw st : string)
    (more : list string) :
  PyStr.split ":" (PyStr.strip raw) = "filter-state" :: st :: more ->
  step data idx raw =
  (["Filter: state == " +:+ st +:+ " ("
    +:+ pretty (length (List.filter (fun entry => bool_decide (state entry = st)) data))
    +:+ " entries)"],
   inr (List.filter (fun entry => bool_decide (state entry = st)) data)).
Proof.
  intros Hparts. rewrite step_nonblank by (eapply split_nonblank, Hparts).
  rewrite (dispatch_parts _ _ _ _ Hparts). reflexivity.
Qed.

(** X9: a [filter-gt] or [filter-lt] line whose threshold is a number and
    whose field resolves on every record keeps the records that pass the
    comparison, prints their count and makes them the current dataset. *)
Theorem comparison_line_replaces data (idx : nat) (raw op field arg : string)
    (more : list string) mk (value : num) :
  PyStr.split ":" (PyStr.strip raw) = op :: field :: arg :: more ->
  comparison_filter op = Some mk ->
  float_of_str arg = Some value ->
  Forall (resolves field) data ->
  step data idx raw =
  ([filter_line (mk field value)
      (length (List.filter (keeps (mk field value)) data))],
   inr (List.filter (keeps (mk field value)) data)).
Proof.
  intros Hparts Hop Harg Hres.
  rewrite step_nonblank by (eapply split_nonblank, Hparts).
  rewrite (comparison_line_dispatch _ _ _ _ _ _ _ Hparts Hop).
  unfold float. rewrite Harg, bind_lift_inr, run_filter_intro.
  - reflexivity.
  - unfold comparison_filter in Hop.
    repeat case_decide; inversion Hop; subst; exact Hres.
Qed.

(** X10: a threshold that [float] does not accept makes a [filter-gt] or
    [filter-lt] line a malformed line, whatever the field and the records
    are: the field is not resolved at all, the error line is printed and
    the dataset is kept. *)
Theorem non_numeric_threshold_reported data (idx : nat)
    (raw op field arg : string) (more : list string) mk :
  PyStr.split ":" (PyStr.strip raw) = op :: field :: arg :: more ->
  comparison_filter op = Some mk ->
  float_of_str arg = None ->
  step data idx raw = ([error_line (idx + 1) (PyStr.strip raw)], inr data).
Proof.
  intros Hparts Hop Harg.
  rewrite step_nonblank by (eapply split_nonblank, Hparts).
  rewrite (comparison_line_dispatch _ _ _ _ _ _ _ Hparts Hop).
  unfold float. now rewrite Harg, bind_lift_inl.
Qed.

(** X11: a field of unknown category in a [filter-gt] or [filter-lt] line
    makes the line a malformed line as soon as there is a record to test;
    on an empty dataset the field is never looked at and the filter
    reports 0 entries. *)
Theorem unknown_category_filter_line data (idx : nat)
    (raw op field arg : string) (more : list string) mk (value : num) :
  PyStr.split ":" (PyStr.strip raw) = op :: field :: arg :: more ->
  comparison_filter op = Some mk ->
  float_of_str arg = Some value ->
  fst (PyStr.cut_first "." field) ∉ categories ->
  step data idx raw =
  match data with
  | [] => ([filter_line (mk field value) 0], inr [])
  | _ :: _ => ([error_line (idx + 1) (PyStr.strip raw)], inr data)
  end.
Proof.
  intros Hparts Hop Harg Hcat.
  rewrite step_nonblank by (eapply split_nonblank, Hparts).
  rewrite (comparison_line_dispatch _ _ _ _ _ _ _ Hparts Hop).
  unfold float. rewrite Harg, bind_lift_inr.
  destruct data as [|entry rest].
  - unfold comparison_filter in Hop.
    repeat case_decide; inversion Hop; subst; reflexivity.
  - pose proof (unknown_category_raises entry field Hcat) as Hraise.
    destruct (filter_raises field value [] entry rest _ (Forall_nil_2 _) Hraise)
      as [Hgt Hlt].
    simpl in Hgt, Hlt. unfold comparison_filter in Hop.
    repeat case_decide; inversion Hop; subst; simpl;
      rewrite ?Hgt, ?Hlt; reflexivity.
Qed.

Lemma split_first_nonblank (line op : string) (args : list string) :
  PyStr.split ":" line = op :: args -> op <> EmptyString -> line <> EmptyString.
Proof. intros Hparts Hop ->. inversion Hparts. congruence. Qed.

(** X12: [display] and [population-total] take no argument and ignore any
    that the line gives: the line prints the report, or the total, of the
    current dataset and keeps it. *)
Theorem report_lines_ignore_arguments data (idx : nat) (raw : string)
    (args : list string) :
  (PyStr.split ":" (PyStr.strip raw) = "display" :: args ->
   step data idx raw = (fst (display data), inr data)) /\
  (PyStr.split ":" (PyStr.strip raw) = "population-total" :: args ->
   step data idx raw =
   (["2014 population: " +:+ num_str (total_population data)], inr data)).
Proof.
  split; intros Hparts;
    (rewrite step_nonblank
       by (eapply split_first_nonblank; [exact Hparts|discriminate]));
    rewrite (dispatch_parts _ _ _ _ Hparts); simpl.
  - pose proof (display_returns data) as Hd.
    destruct (display data) as [o r]; simpl in *; subst; simpl.
    now rewrite app_nil_r.
  - reflexivity.
Qed.

(** X13: the aggregates are dispatched on a prefix of the opcode: any
    opcode that starts with [population], other than [population-total],
    runs [population_field] on the first argument, and any other opcode
    that starts with [percent] runs [percent_field]; the line prints what
    the aggregate prints, keeps the dataset, and lets the [KeyError] of the
    aggregate through. *)
Theorem aggregate_line_by_prefix data (idx : nat) (raw op field : string)
    (more : list string) :
  PyStr.split ":" (PyStr.strip raw) = op :: field :: more ->
  op <> "population-total" ->
  (PyStr.startswith op "population" = true ->
   step data idx raw =
   (fst (population_field data field),
    match snd (population_field data field) with
    | inr _ => inr data
    | inl e => inl e
    end)) /\
  (PyStr.startswith op "population" = false ->
   PyStr.startswith op "percent" = true ->
   step data idx raw =
   (fst (percent_field data field),
    match snd (percent_field data field) with
    | inr _ => inr data
    | inl e => inl e
    end)).
Proof.
  intros Hparts Htotal.
  rewrite step_nonblank by (eapply split_nonblank, Hparts).
  rewrite (dispatch_parts _ _ _ _ Hparts).
  split.
  - intros Hpop.
    repeat case_decide; subst; try (vm_compute in Hpop; discriminate);
      try contradiction.
    rewrite Hpop.
    change (index (op :: field :: more) 1) with (@inr exn string field).
    rewrite bind_lift_inr.
    destruct (population_field_outcome data field) as [[l ->]|[k ->]]; reflexivity.
  - intros Hpop Hpct.
    repeat case_decide; subst; try (vm_compute in Hpct; discriminate);
      try contradiction.
    rewrite Hpop, Hpct.
    change (index (op :: field :: more) 1) with (@inr exn string field).
    rewrite bind_lift_inr.
    destruct (percent_field_outcome data field) as [[l ->]|[k ->]]; reflexivity.
Qed.

(** X14: a line without the arguments its opcode needs is a malformed
    line: a line of one part is one unless it is [display] or
    [population-total], and so is a [filter-gt] or [filter-lt] line of two
    parts; the error line is printed and the dataset is kept. *)
Theorem too_few_arguments_reported data (idx : nat) (raw op : string) :
  PyStr.strip raw <> EmptyString ->
  (PyStr.split ":" (PyStr.strip raw) = [op] /\
   op <> "display" /\ op <> "population-total") \/
  (exists field,
     PyStr.split ":" (PyStr.strip raw) = [op; field] /\
     (op = "filter-gt" \/ op = "filter-lt")) ->
  step data idx raw = ([error_line (idx + 1) (PyStr.strip raw)], inr data).
Proof.
  intros Hline Hcases. rewrite (step_nonblank _ _ _ Hline).
  destruct Hcases as [(Hparts & Hd & Ht)|(field & Hparts & [->| ->])];
    rewrite (dispatch_parts _ _ _ _ Hparts).
  - repeat case_decide; try contradiction; try reflexivity.
    destruct (PyStr.startswith op "population"); [reflexivity|].
    destruct (PyStr.startswith op "percent"); reflexivity.
  - reflexivity.
  - reflexivity.
Qed.

End Lines.

(** ** The aggregates, case by case *)

Section AggregateCases.

Context `{PyNum}.

Implicit Types (data : Dataset).

(** X15: on a dataset with at least one record, a field of unknown
    category makes both aggregates print the [Error:] line with the
    message of the resolution, whatever the records hold. *)
Theorem unknown_category_aggregate (entry : CountyDemographics) (rest : Dataset)
    (field : string) :
  fst (PyStr.cut_first "." field) ∉ categories ->
  population_field (entry :: rest) field =
    (["Error: Field '" +:+ field +:+ "' not found in entry."], inr tt) /\
  percent_field (entry :: rest) field =
    (["Error: Field '" +:+ field +:+ "' not found in entry."], inr tt).
Proof.
  intros Hcat.
  apply (aggregate_unknown_category field [] [] entry rest); [constructor|].
  apply unknown_category_raises, Hcat.
Qed.


End AggregateCases.

(** ** Field names, the report and the program *)

Section WholeProgram.

Context `{PyNum}.

Implicit Types (data : Dataset).

Lemma split_category_key (category key : string) :
  PyStr.contains "." category = false ->
  PyStr.split "." (category +:+ "." +:+ key) = category :: PyStr.split "." key.
Proof.
  induction category as [|c category IH]; simpl; [reflexivity|].
  intros Hc. apply orb_false_iff in Hc as [Hc Hrest].
  rewrite Hc. simpl in IH. now rewrite (IH Hrest).
Qed.

Lemma get_field_value_category_key (entry : CountyDemographics)
    (category key : string) :
  PyStr.contains "." category = false ->
  get_field_value entry (category +:+ "." +:+ key) =
  if decide (category = "Education") then getitem (education entry) key
  else if decide (category = "Ethnicities") then getitem (ethnicities entry) key
  else if decide (category = "Income") then getitem (income entry) key
  else if decide (category = "Population") then getitem (population entry) key
  else inl (ValueError ("Field '" +:+ (category +:+ "." +:+ key)
                        +:+ "' not found in entry.")).
Proof.
  intros Hc. unfold get_field_value.
  rewrite (split_category_key category key Hc). cbv zeta.
  now rewrite join_split.
Qed.

(** X17: a field written as a category name, a dot and a key finds the
    entry of that key in the mapping of the category, whatever characters
    the key is made of (dots included), and raises [KeyError] with that
    key when the mapping has no such entry. *)
Theorem field_of_category_and_key (entry : CountyDemographics) (key : string) :
  get_field_value entry ("Population." +:+ key) = getitem (population entry) key /\
  get_field_value entry ("Education." +:+ key) = getitem (education entry) key /\
  get_field_value entry ("Ethnicities." +:+ key) = getitem (ethnicities entry) key /\
  get_field_value entry ("Income." +:+ key) = getitem (income entry) key.
Proof.
  repeat split.
  - exact (get_field_value_category_key entry "Population" key eq_refl).
  - exact (get_field_value_category_key entry "Education" key eq_refl).
  - exact (get_field_value_category_key entry "Ethnicities" key eq_refl).
  - exact (get_field_value_category_key entry "Income" key eq_refl).
Qed.

Lemma display_entry_lines (entry : CountyDemographics) :
  snd (display_entry entry) = inr tt /\
  length (fst (display_entry entry)) = 23 /\
  fst (display_entry entry) !! 0 = Some (county entry +:+ ", " +:+ state entry) /\
  fst (display_entry entry) !! 22 = Some EmptyString.
Proof. repeat split. Qed.

Lemma display_cons (entry : CountyDemographics) data :
  fst (display (entry :: data)) = fst (display_entry entry) ++ fst (display data).
Proof.
  change (display (entry :: data))
    with (bind (display_entry entry) (fun _ => display data)).
  destruct (display_entry_lines entry) as (Hr & _).
  destruct (display_entry entry) as [o r]. simpl in Hr. subst r. simpl.
  now destruct (display data).
Qed.

(** X18: [display] never fails, whatever keys the records lack, and
    prints 23 lines for each record, in the order of the dataset: the
    block of a record starts with its county and state and ends with an
    empty line. *)
Theorem display_layout data :
  snd (display data) = inr tt /\
  length (fst (display data)) = 23 * length data /\
  forall (i : nat) (entry : CountyDemographics),
    data !! i = Some entry ->
    fst (display data) !! (23 * i) = Some (county entry +:+ ", " +:+ state entry) /\
    fst (display data) !! (23 * i + 22) = Some EmptyString.
Proof.
  split; [apply display_returns|].
  induction data as [|x rest [IHlen IHlook]].
  - split; [reflexivity|]. intros i entry Hi. discriminate.
  - destruct (display_entry_lines x) as (_ & Hlen & Hfirst & Hlast).
    rewrite display_cons. split.
    + rewrite length_app, Hlen, IHlen. simpl. lia.
    + intros [|i] entry Hi.
      * inversion Hi; subst. split.
        -- rewrite lookup_app_l by (rewrite Hlen; lia). exact Hfirst.
        -- rewrite lookup_app_l by (rewrite Hlen; simpl; lia). exact Hlast.
      * simpl in Hi. destruct (IHlook i entry Hi) as [Hh Hb]. split.
        -- rewrite lookup_app_r by (rewrite Hlen; lia).
           rewrite Hlen. replace (23 * S i - 23) with (23 * i) by lia. exact Hh.
        -- rewrite lookup_app_r by (rewrite Hlen; lia).
           rewrite Hlen. replace (23 * S i + 22 - 23) with (23 * i + 22) by lia.
           exact Hb.
Qed.



End WholeProgram.

(** ** Whitespace around a line, and aggregates after a filter *)

Section Composition.

Context `{PyNum}.

Implicit Types (data : Dataset).

Lemma lstrip_by_head (p : ascii -> bool) (s : string) (c : ascii) (t : string) :
  PyStr.lstrip_by p s = String c t -> p c = false.
Proof.
  induction s as [|x s IH]; simpl; [discriminate|].
  destruct (p x) eqn:Hx; [exact IH|].
  intros Heq. inversion Heq; subst. exact Hx.
Qed.

Lemma rstrip_by_keeps_head (p : ascii -> bool) (c : ascii) (t : string) :
  p c = false ->
  PyStr.rstrip_by p (String c t) = String c (PyStr.rstrip_by p t).
Proof.
  intros Hc. simpl. destruct (PyStr.rstrip_by p t); [now rewrite Hc|reflexivity].
Qed.

Lemma rstrip_by_idempotent (p : ascii -> bool) (s : string) :
  PyStr.rstrip_by p (PyStr.rstrip_by p s) = PyStr.rstrip_by p s.
Proof.
  induction s as [|c s IH]; simpl; [reflexivity|].
  destruct (PyStr.rstrip_by p s) as [|x r] eqn:Hr.
  - destruct (p c) eqn:Hc; simpl; [reflexivity|now rewrite Hc].
  - change (PyStr.rstrip_by p (String c (String x r)))
      with (match PyStr.rstrip_by p (String x r) with
            | EmptyString => if p c then EmptyString else String c EmptyString
            | r' => String c r'
            end).
    now rewrite IH.
Qed.

Lemma strip_idempotent (s : string) : PyStr.strip (PyStr.strip s) = PyStr.strip s.
Proof.
  unfold PyStr.strip.
  destruct (PyStr.lstrip_by PyStr.isspace s) as [|c t] eqn:Hl; [reflexivity|].
  pose proof (lstrip_by_head _ _ _ _ Hl) as Hc.
  rewrite (rstrip_by_keeps_head _ _ _ Hc).
  change (PyStr.lstrip_by PyStr.isspace (String c (PyStr.rstrip_by PyStr.isspace t)))
    with (if PyStr.isspace c
          then PyStr.lstrip_by PyStr.isspace (PyStr.rstrip_by PyStr.isspace t)
          else String c (PyStr.rstrip_by PyStr.isspace t)).
  rewrite Hc, (rstrip_by_keeps_head _ _ _ Hc). now rewrite rstrip_by_idempotent.
Qed.

(** X20: the whitespace before and after a line does not matter: the
    line does what its stripped text does, error line included. *)
Theorem surrounding_whitespace_ignored data (idx : nat) (raw : string) :
  step data idx raw = step data idx (PyStr.strip raw).
Proof. unfold step. now rewrite strip_idempotent. Qed.


End Composition.

(** ** The further properties on the concrete runtime *)

Section ConcreteRuns.

Import Binary64 Examples.

Lemma blank_lines_skipped_witness :
  run [slo; yolo] 0 [LF; "   " +:+ LF; EmptyString] = ([], inr [slo; yolo]).
Proof.
  apply (blank_lines_skipped (H := runtime)).
  repeat constructor.
Defined.


Lemma dataset_only_shrinks_witness : sublist [yolo] [slo; yolo].
Proof.
  apply (dataset_only_shrinks (H := runtime) [slo; yolo] 0
           ["display" +:+ LF; "filter-gt:" +:+ bachelors +:+ ":35" +:+ LF;
            "bogus" +:+ LF]
           (fst (display [slo; yolo])
            ++ ["Filter: Education.Bachelor's Degree or Higher gt 35.0 (1 entries)";
                "Error: Malformed line 3: bogus"])).
  reflexivity.
Defined.

Lemma non_filter_line_keeps_dataset_witness :
  snd (step [slo; yolo] 0 ("percent:" +:+ bachelors +:+ LF)) = inr [slo; yolo].
Proof.
  destruct (step [slo; yolo] 0 ("percent:" +:+ bachelors +:+ LF))
    as [out [e|data']] eqn:Hstep; [discriminate Hstep|].
  simpl. f_equal.
  apply (non_filter_line_keeps_dataset (H := runtime) [slo; yolo] 0
           ("percent:" +:+ bachelors +:+ LF) "percent" [bachelors] out data').
  - reflexivity.
  - unfold filter_opcodes. rewrite !not_elem_of_cons.
    repeat split; try discriminate. apply not_elem_of_nil.
  - exact Hstep.
Defined.

Lemma filter_keeps_exactly_witness :
  [yolo] = List.filter (keeps (FilterGt (H := runtime) bachelors (number "35")))
             [slo; yolo] /\
  (forall entry,
     entry ∈ [yolo] <->
     entry ∈ [slo; yolo] /\
     satisfies (FilterGt (H := runtime) bachelors (number "35")) entry) /\
  ["Filter: Education.Bachelor's Degree or Higher gt 35.0 (1 entries)"]
  = [filter_line (FilterGt (H := runtime) bachelors (number "35")) (length [yolo])].
Proof.
  apply (filter_keeps_exactly (FilterGt (H := runtime) bachelors (number "35"))
           [slo; yolo]).
  reflexivity.
Defined.

Lemma filters_commute_witness :
  exists both,
    run_filter (FilterLt (H := runtime) bachelors (number "35")) [slo; yolo]
    = ([filter_line (FilterLt (H := runtime) bachelors (number "35")) (length both)],
       inr both) /\
    run_filter (FilterState (H := runtime) "CA") [slo; empty_county]
    = ([filter_line (FilterState (H := runtime) "CA") (length both)], inr both).
Proof.
  apply (filters_commute (FilterState (H := runtime) "CA")
           (FilterLt (H := runtime) bachelors (number "35"))
           [slo; yolo; empty_county]
           ["Filter: state == CA (2 entries)"]
           ["Filter: Education.Bachelor's Degree or Higher lt 35.0 (2 entries)"]);
    reflexivity.
Defined.

Lemma filter_state_line_replaces_witness :
  step [slo; yolo; empty_county] 0 ("  filter-state:NV:ignored" +:+ LF)
  = (["Filter: state == NV (1 entries)"], inr [empty_county]).
Proof.
  rewrite (filter_state_line_replaces (H := runtime) [slo; yolo; empty_county] 0
             ("  filter-state:NV:ignored" +:+ LF) "NV" ["ignored"]);
    reflexivity.
Defined.

Lemma comparison_line_replaces_witness :
  step [slo; yolo] 0 ("filter-gt:" +:+ bachelors +:+ ":35" +:+ LF)
  = (["Filter: Education.Bachelor's Degree or Higher gt 35.0 (1 entries)"],
     inr [yolo]).
Proof.
  rewrite (comparison_line_replaces (H := runtime) [slo; yolo] 0
             ("filter-gt:" +:+ bachelors +:+ ":35" +:+ LF)
             "filter-gt" bachelors "35" [] FilterGt (number "35")).
  - reflexivity.
  - reflexivity.
  - reflexivity.
  - reflexivity.
  - repeat constructor; eexists; reflexivity.
Defined.

Lemma non_numeric_threshold_reported_witness :
  step [bare] 4 ("filter-lt:" +:+ bachelors +:+ ":high" +:+ LF)
  = (["Error: Malformed line 5: filter-lt:Education.Bachelor's Degree or Higher:high"],
     inr [bare]).
Proof.
  rewrite (non_numeric_threshold_reported (H := runtime) [bare] 4
             ("filter-lt:" +:+ bachelors +:+ ":high" +:+ LF)
             "filter-lt" bachelors "high" [] FilterLt);
    reflexivity.
Defined.

Lemma unknown_category_filter_line_witness :
  step [slo] 0 ("filter-gt:Schooling.Any:5" +:+ LF)
  = (["Error: Malformed line 1: filter-gt:Schooling.Any:5"], inr [slo]).
Proof.
  rewrite (unknown_category_filter_line (H := runtime) [slo] 0
             ("filter-gt:Schooling.Any:5" +:+ LF)
             "filter-gt" "Schooling.Any" "5" [] FilterGt (number "5")).
  - reflexivity.
  - reflexivity.
  - reflexivity.
  - reflexivity.
  - unfold categories. rewrite !not_elem_of_cons.
    repeat split; try discriminate. apply not_elem_of_nil.
Defined.

Lemma aggregate_line_by_prefix_witness :
  step [slo; yolo] 0 ("populationOf:" +:+ bachelors +:+ LF)
  = (["2014 Education.Bachelor's Degree or Higher population: 166587.755000000004657"],
     inr [slo; yolo]).
Proof.
  destruct (aggregate_line_by_prefix (H := runtime) [slo; yolo] 0
              ("populationOf:" +:+ bachelors +:+ LF) "populationOf" bachelors [])
    as [Hpop _].
  - reflexivity.
  - discriminate.
  - rewrite Hpop; reflexivity.
Defined.

Lemma too_few_arguments_reported_witness :
  step [slo] 1 ("filter-state" +:+ LF)
  = (["Error: Malformed line 2: filter-state"], inr [slo]).
Proof.
  rewrite (too_few_arguments_reported (H := runtime) [slo] 1
             ("filter-state" +:+ LF) "filter-state").
  - reflexivity.
  - vm_compute. discriminate.
  - left. repeat split; discriminate.
Defined.

Lemma unknown_category_aggregate_witness :
  population_field [bare; slo] "education.High School or Higher"
  = (["Error: Field 'education.High School or Higher' not found in entry."], inr tt) /\
  percent_field [bare; slo] "education.High School or Higher"
  = (["Error: Field 'education.High School or Higher' not found in entry."], inr tt).
Proof.
  apply (unknown_category_aggregate (H := runtime) bare [slo]
           "education.High School or Higher").
  unfold categories. rewrite !not_elem_of_cons.
  repeat split; try discriminate. apply not_elem_of_nil.
Defined.


Lemma report_lines_ignore_arguments_witness :
  step [bare] 0 ("display:now:please" +:+ LF) = (fst (display [bare]), inr [bare]) /\
  step [slo; yolo] 0 ("population-total:2014" +:+ LF)
  = (["2014 population: 486673"], inr [slo; yolo]).
Proof.
  split.
  - apply (report_lines_ignore_arguments (H := runtime) [bare] 0
             ("display:now:please" +:+ LF) ["now"; "please"]).
    reflexivity.
  - rewrite (proj2 (report_lines_ignore_arguments (H := runtime) [slo; yolo] 0
                      ("population-total:2014" +:+ LF) ["2014"]));
      reflexivity.
Defined.


(** The whole program on a script that mixes the cases above. *)
Example main_on_a_script :
  main (fun _ => Some ["  display:now" +:+ LF;
                       LF;
                       "filter-state:CA" +:+ LF;
                       "filter-gt:" +:+ bachelors +:+ ":high" +:+ LF;
                       "percentage:" +:+ bachelors +:+ LF;
                       "filter-gt:" +:+ bachelors +:+ ":35" +:+ LF;
                       "population-total:" +:+ LF])
       [empty_county; yolo] ["hw4.py"; "ops.txt"]
  = ("2 records loaded"
     :: fst (display [empty_county; yolo])
     ++ ["Filter: state == CA (1 entries)";
         "Error: Malformed line 4: filter-gt:Education.Bachelor's Degree or Higher:high";
         "2014 Education.Bachelor's Degree or Higher percentage: 37.9";
         "Filter: Education.Bachelor's Degree or Higher gt 35.0 (1 entries)";
         "2014 population: 207590"], inr tt).
Proof. reflexivity. Qed.

End ConcreteRuns.
